(** * mcp-code-reviewer: checklist execution pipeline

    A shallow embedding of the checklist runner ([checklist_engine.py]),
    the progress model ([reporters/progress_tracker.py]) and the two
    validation strategies ([validators/*.py]), followed by the properties
    of the specification that concern them.  The tools of [main.py]
    that use the engine and the detector of [technology_detector.py]
    follow, with further properties read off the code.

    Conventions of the embedding.
    - Python [int] is [Z]; [str] is [string]; a [list] is a [list].
    - A dict read from a checklist file is a record whose fields are
      [option]s: [None] stands for an absent key, so that [d['k']] can
      raise [KeyError] and [d.get('k', default)] can fall back.
    - Exceptions are values of [exn]; a computation that can raise returns
      a [Result].  The engine mutates its tracker and calls the progress
      callback, so its methods live in a state monad over [World] that
      keeps the state reached when an exception escapes.
    - What the standard library does (regular expressions, globbing, float
      arithmetic) is the interface [Runtime]; the file system under the
      project root is a [Project] value. *)

From Stdlib Require Import ZArith QArith List String Ascii Bool Lia.
From Stdlib Require Import DecimalString.
Import ListNotations.

Open Scope string_scope.
Open Scope Z_scope.

(* ===================================================================== *)
(** ** Exceptions and results *)
(* ===================================================================== *)

Inductive exn : Type :=
| KeyError (key : string)
| OSError (msg : string)
| FileNotFoundError (msg : string)
| ValueError (msg : string)
| re_error (msg : string)
| NotImplementedError (msg : string).

(** [str(e)]: a [KeyError] prints the repr of its key, the others their
    message. *)
Definition str_exn (e : exn) : string :=
  match e with
  | KeyError key => "'" ++ key ++ "'"
  | OSError msg | FileNotFoundError msg | ValueError msg | re_error msg
  | NotImplementedError msg => msg
  end.

(** [type(e).__name__] *)
Definition type_name (e : exn) : string :=
  match e with
  | KeyError _ => "KeyError"
  | OSError _ => "OSError"
  | FileNotFoundError _ => "FileNotFoundError"
  | ValueError _ => "ValueError"
  | re_error _ => "error"
  | NotImplementedError _ => "NotImplementedError"
  end.

Inductive Result (A : Type) : Type :=
| Ok (a : A)
| Raise (e : exn).
Arguments Ok {A} a.
Arguments Raise {A} e.

Definition rbind {A B} (r : Result A) (k : A -> Result B) : Result B :=
  match r with
  | Ok a => k a
  | Raise e => Raise e
  end.

Declare Scope result_scope.
Delimit Scope result_scope with result.
Notation "'let?' x ':=' r 'in' k" := (rbind r (fun x => k))
  (at level 10, x name, r at level 100, k at level 200) : result_scope.

(** [d[key]] on a dict whose key may be absent. *)
Definition getitem {A} (field : option A) (key : string) : Result A :=
  match field with
  | Some v => Ok v
  | None => Raise (KeyError key)
  end.

(** [d.get(key, default)] *)
Definition get {A} (field : option A) (default : A) : A :=
  match field with
  | Some v => v
  | None => default
  end.

(* ===================================================================== *)
(** ** What the Python runtime provides *)
(* ===================================================================== *)

(** Timestamps are microseconds on some clock; [datetime.now()] is an
    argument of the methods that call it. *)
Definition datetime := Z.

Class Runtime : Type := {
  (** binary floating point numbers *)
  pyfloat : Type;
  (** [completed / total * 100], for [total > 0] *)
  percent : Z -> Z -> pyfloat;
  (** [round(x, 1)] *)
  round1 : pyfloat -> pyfloat;
  (** [(end - start).total_seconds()] from the difference in microseconds *)
  total_seconds : Z -> pyfloat;
  (** compiled regular expressions *)
  pattern : Type;
  (** [re.compile(s, re.IGNORECASE | re.MULTILINE)]; raises [re.error] *)
  re_compile : string -> Result pattern;
  (** [pattern.search(line)] is not [None] *)
  re_search : pattern -> string -> bool;
  (** whether a path, given by its parts relative to the directory
      searched, is among the results of [rglob(pat)] *)
  glob_match : string -> list string -> bool;
  (** the exception [rglob(pat)] raises when it refuses the pattern, as
      it does a pattern that is not relative *)
  rglob_error : string -> option exn
}.

(** A Python number that is an [int] or a [float]. *)
Inductive number `{Runtime} : Type :=
| PyInt (z : Z)
| PyFloat (x : pyfloat).

(* ===================================================================== *)
(** ** Strings *)
(* ===================================================================== *)

(** [content.split('\n')] *)
Fixpoint split_lines (s : string) : list string :=
  match s with
  | EmptyString => [EmptyString]
  | String c rest =>
      if Ascii.eqb c "010"%char then EmptyString :: split_lines rest
      else match split_lines rest with
           | l :: ls => String c l :: ls
           | [] => [String c EmptyString]
           end
  end.

(** [enumerate(xs, start=n)] *)
Fixpoint enumerate {A} (xs : list A) (start : Z) : list (Z * A) :=
  match xs with
  | [] => []
  | x :: rest => (start, x) :: enumerate rest (start + 1)
  end.

(** [x in xs] for strings *)
Definition str_in (x : string) (xs : list string) : bool :=
  existsb (String.eqb x) xs.

(* ===================================================================== *)
(** ** reporters/progress_tracker.py *)
(* ===================================================================== *)

Module ProgressTracker.

(** The dict stored in [current_check]. *)
Record CurrentCheck : Type := {
  cc_id : string;
  cc_description : string
}.

(** The dict [review_code] hands to [record_fail]. *)
Record FailureInfo : Type := {
  f_check_id : string;
  f_category : string;
  f_message : string;
  f_file_path : string;
  f_line_number : Z;
  f_severity : string
}.

(** The attributes of a [ProgressTracker] object. *)
Record t : Type := mk {
  total_checks : Z;
  passed : Z;
  failed : Z;
  skipped : Z;
  in_progress : Z;
  current_check : option CurrentCheck;
  failures : list FailureInfo;
  start_time : option datetime;
  end_time : option datetime
}.

(** [__init__] *)
Definition init : t :=
  {| total_checks := 0; passed := 0; failed := 0; skipped := 0;
     in_progress := 0; current_check := None; failures := [];
     start_time := None; end_time := None |}.

Definition start (total : Z) (now : datetime) (self : t) : t :=
  {| total_checks := total;
     start_time := Some now;
     passed := 0;
     failed := 0;
     skipped := 0;
     in_progress := 0;
     failures := [];
     current_check := current_check self;
     end_time := end_time self |}.

Definition update_check (check_id description : string) (self : t) : t :=
  {| current_check :=
       Some {| cc_id := check_id; cc_description := description |};
     in_progress := 1;
     total_checks := total_checks self; passed := passed self;
     failed := failed self; skipped := skipped self;
     failures := failures self; start_time := start_time self;
     end_time := end_time self |}.

Definition record_pass (self : t) : t :=
  {| passed := passed self + 1;
     in_progress := 0;
     total_checks := total_checks self; failed := failed self;
     skipped := skipped self; current_check := current_check self;
     failures := failures self; start_time := start_time self;
     end_time := end_time self |}.

Definition record_fail (failure_info : FailureInfo) (self : t) : t :=
  {| failed := failed self + 1;
     in_progress := 0;
     failures := failures self ++ [failure_info];
     total_checks := total_checks self; passed := passed self;
     skipped := skipped self; current_check := current_check self;
     start_time := start_time self; end_time := end_time self |}.

Definition record_skip (self : t) : t :=
  {| skipped := skipped self + 1;
     in_progress := 0;
     total_checks := total_checks self; passed := passed self;
     failed := failed self; current_check := current_check self;
     failures := failures self; start_time := start_time self;
     end_time := end_time self |}.

Definition complete (now : datetime) (self : t) : t :=
  {| end_time := Some now;
     in_progress := 0;
     total_checks := total_checks self; passed := passed self;
     failed := failed self; skipped := skipped self;
     current_check := current_check self; failures := failures self;
     start_time := start_time self |}.

Section Reports.
Context `{Runtime}.

(** The dict [get_progress] returns. *)
Record Progress : Type := {
  total : Z;
  completed : Z;
  p_passed : Z;
  p_failed : Z;
  p_skipped : Z;
  percentage : number;
  p_current_check : option CurrentCheck;
  p_in_progress : bool
}.

(** [round] of a float is a float, of the int [0] it is [0]. *)
Definition round_1 (x : number) : number :=
  match x with
  | PyInt z => PyInt z
  | PyFloat f => PyFloat (round1 f)
  end.

(** A method that reads the tracker returns its value and the tracker
    it leaves behind. *)
Definition get_progress (self : t) : Progress * t :=
  let completed := passed self + failed self + skipped self in
  let percentage :=
    if total_checks self >? 0
    then PyFloat (percent completed (total_checks self))
    else PyInt 0 in
  ({| total := total_checks self;
      completed := completed;
      p_passed := passed self;
      p_failed := failed self;
      p_skipped := skipped self;
      percentage := round_1 percentage;
      p_current_check := current_check self;
      p_in_progress := in_progress self >? 0 |},
   self).

(** The dict [get_summary] returns: the progress entries and three
    more. *)
Record Summary : Type := {
  progress : Progress;
  s_failures : list FailureInfo;
  duration_seconds : option pyfloat;
  status : string
}.

Definition get_summary (self : t) : Summary * t :=
  let '(progress, self) := get_progress self in
  let duration :=
    match start_time self, end_time self with
    | Some t0, Some t1 => Some (total_seconds (t1 - t0))
    | _, _ => None
    end in
  ({| progress := progress;
      s_failures := failures self;
      duration_seconds := duration;
      status := match end_time self with
                | Some _ => "completed"
                | None => "in_progress"
                end |},
   self).
End Reports.

(** The calls a client can make on a tracker that change it. *)
Inductive call : Type :=
| Start (total : Z) (now : datetime)
| UpdateCheck (check_id description : string)
| RecordPass
| RecordFail (failure_info : FailureInfo)
| RecordSkip
| Complete (now : datetime).

Definition apply_call (self : t) (c : call) : t :=
  match c with
  | Start total now => start total now self
  | UpdateCheck i d => update_check i d self
  | RecordPass => record_pass self
  | RecordFail info => record_fail info self
  | RecordSkip => record_skip self
  | Complete now => complete now self
  end.

Definition run (calls : list call) (self : t) : t :=
  fold_left apply_call calls self.

Definition is_record (c : call) : bool :=
  match c with
  | RecordPass | RecordFail _ | RecordSkip => true
  | _ => false
  end.

End ProgressTracker.

(* ===================================================================== *)
(** ** Checklists and projects *)
(* ===================================================================== *)

(** A check of a checklist file.  [technology] is the tag that
    [_execute_check] writes into the check. *)
Module Check.
Record t : Type := mk {
  id : option string;
  description : option string;
  severity : option string;
  patterns : option (list string);
  files : option (list string);
  technology : option string
}.

(** [check['technology'] = technology] *)
Definition set_technology (technology : string) (check : t) : t :=
  {| id := id check; description := description check;
     severity := severity check; patterns := patterns check;
     files := files check; technology := Some technology |}.
End Check.

Module Category.
Record t : Type := mk {
  name : option string;
  items : option (list Check.t)
}.
End Category.

Module Checklist.
Record t : Type := mk {
  technology : option string;
  description : option string;
  categories : option (list Category.t)
}.
End Checklist.

(** Something [rglob] can return: its path below the project root, and
    what [read_text(encoding='utf-8', errors='ignore')] does on it. *)
Record Entry : Type := {
  rel_parts : list string;
  read_text : Result string
}.

(** The project tree: the parts of [project_path], whether that path
    exists, what lies below it in the order [rglob] walks it, and whether
    [project_path / filename] exists. *)
Record Project : Type := {
  project_path : list string;
  root_exists : bool;
  entries : list Entry;
  path_exists : string -> bool
}.

(** [str(file_path.relative_to(self.project_path))] *)
Definition relative_str (f : Entry) : string :=
  String.concat "/" (rel_parts f).

(** [f.parts] of a path found below the project root. *)
Definition parts (P : Project) (f : Entry) : list string :=
  project_path P ++ rel_parts f.

(* ===================================================================== *)
(** ** validators/base_validator.py *)
(* ===================================================================== *)

Module ValidationResult.
Record t : Type := mk {
  check_id : string;
  passed : bool;
  message : string;
  file_path : string;
  line_number : Z;
  severity : string
}.
End ValidationResult.

Module BaseValidator.
Section WithRuntime.
Context `{Runtime}.

(** [self.project_path.rglob(pat)], for a pattern [rglob] accepts *)
Definition rglob (P : Project) (pat : string) : list Entry :=
  filter (fun f => glob_match pat (rel_parts f)) (entries P).

Definition skip_dirs : list string :=
  ["node_modules"; "venv"; ".venv"; "__pycache__";
   "dist"; "build"; ".git"; "coverage"].

(** [not any(skip_dir in f.parts for skip_dir in skip_dirs)] *)
Definition kept (P : Project) (f : Entry) : bool :=
  negb (existsb (fun skip_dir => str_in skip_dir (parts P f)) skip_dirs).

Definition get_files_to_check (P : Project) (extensions : list string)
  : list Entry :=
  let files := flat_map (fun ext => rglob P ("*" ++ ext)) extensions in
  filter (kept P) files.
End WithRuntime.
End BaseValidator.

(* ===================================================================== *)
(** ** validators/pattern_validator.py *)
(* ===================================================================== *)

Module PatternValidator.
Import ValidationResult.
Section WithRuntime.
Context `{Runtime}.
Local Open Scope result_scope.

Definition _get_extensions (technology : string) : list string :=
  if String.eqb technology "python" then [".py"]
  else if String.eqb technology "javascript" then [".js"; ".jsx"]
  else if String.eqb technology "typescript" then [".ts"; ".tsx"]
  else if String.eqb technology "java" then [".java"]
  else if String.eqb technology "go" then [".go"]
  else if String.eqb technology "rust" then [".rs"]
  else [".py"].

(** The result built for a matching line.  The keyword arguments are
    evaluated in the order written, so [check['id']] is looked up
    before [check['description']]. *)
Definition match_result (check : Check.t) (f : Entry) (line_num : Z)
  : Result t :=
  let? i := getitem (Check.id check) "id" in
  let? d := getitem (Check.description check) "description" in
  Ok {| check_id := i;
        passed := false;
        message := "Pattern match: " ++ d;
        file_path := relative_str f;
        line_number := line_num;
        severity := get (Check.severity check) "info" |}.

(** The result built by the [except] clause. *)
Definition error_result (check : Check.t) (f : Entry) (e : exn)
  : Result t :=
  let? i := getitem (Check.id check) "id" in
  Ok {| check_id := i;
        passed := false;
        message := "Error reading file: " ++ str_exn e;
        file_path := relative_str f;
        line_number := 0;
        severity := "error" |}.

(** The statements under [try] append to [results] and may be cut
    short by an exception: each of the three loops returns the list
    as it then stands, and the exception if there is one. *)
Fixpoint search_lines (check : Check.t) (f : Entry) (p : pattern)
  (lines : list (Z * string)) (results : list t)
  : list t * option exn :=
  match lines with
  | [] => (results, None)
  | (line_num, line) :: rest =>
      if re_search p line then
        match match_result check f line_num with
        | Ok r => search_lines check f p rest (results ++ [r])
        | Raise e => (results, Some e)
        end
      else search_lines check f p rest results
  end.

Fixpoint search_patterns (check : Check.t) (f : Entry)
  (lines : list string) (patterns : list string) (results : list t)
  : list t * option exn :=
  match patterns with
  | [] => (results, None)
  | pattern_str :: rest =>
      match re_compile pattern_str with
      | Raise e => (results, Some e)
      | Ok p =>
          match search_lines check f p (enumerate lines 1) results with
          | (results, None) => search_patterns check f lines rest results
          | (results, Some e) => (results, Some e)
          end
      end
  end.

Definition try_file (check : Check.t) (f : Entry)
  (patterns : list string) (results : list t) : list t * option exn :=
  match read_text f with
  | Raise e => (results, Some e)
  | Ok content =>
      search_patterns check f (split_lines content) patterns results
  end.

(** [for file_path in files: try: ... except Exception as e: ...] *)
Fixpoint check_files (check : Check.t) (patterns : list string)
  (files : list Entry) (results : list t) : Result (list t) :=
  match files with
  | [] => Ok results
  | f :: rest =>
      match try_file check f patterns results with
      | (results, None) => check_files check patterns rest results
      | (results, Some e) =>
          let? r := error_result check f e in
          check_files check patterns rest (results ++ [r])
      end
  end.

Definition validate (P : Project) (check : Check.t) : Result (list t) :=
  let patterns := get (Check.patterns check) [] in
  match patterns with
  | [] =>
      let? i := getitem (Check.id check) "id" in
      Ok [ {| check_id := i; passed := true;
              message := "No patterns defined";
              file_path := ""; line_number := 0; severity := "info" |} ]
  | _ :: _ =>
      let extensions :=
        _get_extensions (get (Check.technology check) "python") in
      let files := BaseValidator.get_files_to_check P extensions in
      match files with
      | [] =>
          let? i := getitem (Check.id check) "id" in
          Ok [ {| check_id := i; passed := true;
                  message := "No files found to check";
                  file_path := ""; line_number := 0;
                  severity := "info" |} ]
      | _ :: _ =>
          let? results := check_files check patterns files [] in
          match results with
          | [] =>
              let? i := getitem (Check.id check) "id" in
              let? d := getitem (Check.description check) "description" in
              Ok [ {| check_id := i; passed := true; message := d;
                      file_path := ""; line_number := 0;
                      severity := "info" |} ]
          | _ :: _ => Ok results
          end
      end
  end.
End WithRuntime.
End PatternValidator.

(* ===================================================================== *)
(** ** validators/file_validator.py *)
(* ===================================================================== *)

Module FileValidator.
Import ValidationResult.
Section WithRuntime.
Context `{Runtime}.
Local Open Scope result_scope.

(** The first loop of [_check_pattern_files]: [found], and the value
    of [matching_files] when the loop is left.  The patterns come from
    the check, and [rglob] raises on one it refuses. *)
Fixpoint find_matching (P : Project) (patterns : list string)
  (matching_files : list Entry) : Result (bool * list Entry) :=
  match patterns with
  | [] => Ok (false, matching_files)
  | pat :: rest =>
      match rglob_error pat with
      | Some e => Raise e
      | None =>
          let matching_files :=
            filter (BaseValidator.kept P) (BaseValidator.rglob P pat) in
          match matching_files with
          | _ :: _ => Ok (true, matching_files)
          | [] => find_matching P rest matching_files
          end
      end
  end.

(** [str(n)] of a count. *)
Definition str_nat (n : nat) : string :=
  NilZero.string_of_uint (Nat.to_uint n).

Definition _check_pattern_files (P : Project) (check : Check.t)
  (patterns : list string) : Result (list t) :=
  let? loop := find_matching P patterns [] in
  let '(found, matching_files) := loop in
  if found then
    let? i := getitem (Check.id check) "id" in
    let? d := getitem (Check.description check) "description" in
    Ok [ {| check_id := i; passed := true;
            message := d ++ " - Found "
                       ++ str_nat (List.length matching_files) ++ " file(s)";
            file_path := ""; line_number := 0; severity := "info" |} ]
  else
    let? i := getitem (Check.id check) "id" in
    Ok [ {| check_id := i; passed := false;
            message := "No files found matching patterns: "
                       ++ String.concat ", " patterns;
            file_path := ""; line_number := 0;
            severity := get (Check.severity check) "info" |} ].

(** [for filename in files_to_check: if exists: found = True; break] *)
Definition any_exists (P : Project) (files_to_check : list string) : bool :=
  existsb (path_exists P) files_to_check.

Definition validate (P : Project) (check : Check.t) : Result (list t) :=
  let files_to_check := get (Check.files check) [] in
  match files_to_check with
  | [] =>
      let patterns := get (Check.patterns check) [] in
      match patterns with
      | _ :: _ => _check_pattern_files P check patterns
      | [] =>
          let? i := getitem (Check.id check) "id" in
          Ok [ {| check_id := i; passed := true;
                  message := "No files specified";
                  file_path := ""; line_number := 0;
                  severity := "info" |} ]
      end
  | _ :: _ =>
      if any_exists P files_to_check then
        let? i := getitem (Check.id check) "id" in
        let? d := getitem (Check.description check) "description" in
        Ok [ {| check_id := i; passed := true; message := d;
                file_path := ""; line_number := 0; severity := "info" |} ]
      else
        let? i := getitem (Check.id check) "id" in
        Ok [ {| check_id := i; passed := false;
                message := "Missing required files: "
                           ++ String.concat ", " files_to_check;
                file_path := ""; line_number := 0;
                severity := get (Check.severity check) "info" |} ]
  end.
End WithRuntime.
End FileValidator.

(* ===================================================================== *)
(** ** checklist_engine.py *)
(* ===================================================================== *)

Module ChecklistEngine.
Import ValidationResult.
Section WithRuntime.
Context `{Runtime}.

(** What an engine is built on: the project, and the checklist
    directory as the parsed content of each [<stem>.yaml] in it
    ([None] when the directory does not exist). *)
Record Engine : Type := {
  project : Project;
  checklist_dir : option (list (string * Checklist.t))
}.

(** What a review changes: the engine's tracker, and the snapshots
    handed to the progress callback so far. *)
Record World : Type := {
  progress_tracker : ProgressTracker.t;
  progress_updates : list ProgressTracker.Progress
}.

(** [ChecklistEngine(project_path)], where [project_path] is the
    string the caller gave for the project [E] stands on. *)
Definition new (E : Engine) (project_path : string) : Result World :=
  if root_exists (project E) then
    Ok {| progress_tracker := ProgressTracker.init;
          progress_updates := [] |}
  else Raise (ValueError
                ("Project path does not exist: " ++ project_path)).

(** Methods of the engine: the state reached is kept when an
    exception escapes. *)
Definition M (A : Type) : Type := World -> Result A * World.

Definition ret {A} (a : A) : M A := fun w => (Ok a, w).

Definition bind {A B} (m : M A) (k : A -> M B) : M B :=
  fun w =>
    match m w with
    | (Ok a, w) => k a w
    | (Raise e, w) => (Raise e, w)
    end.

Definition lift {A} (r : Result A) : M A := fun w => (r, w).

(** A call of a tracker method that returns nothing. *)
Definition tracker (f : ProgressTracker.t -> ProgressTracker.t) : M unit :=
  fun w => (Ok tt, {| progress_tracker := f (progress_tracker w);
                      progress_updates := progress_updates w |}).

(** [if progress_callback:
        progress_callback(self.progress_tracker.get_progress())] *)
Definition notify (progress_callback : bool) : M unit :=
  fun w =>
    if progress_callback then
      let '(p, self) := ProgressTracker.get_progress (progress_tracker w) in
      (Ok tt, {| progress_tracker := self;
                 progress_updates := progress_updates w ++ [p] |})
    else (Ok tt, w).

Fixpoint for_each {A} (body : A -> M unit) (xs : list A) : M unit :=
  match xs with
  | [] => ret tt
  | x :: rest => bind (body x) (fun _ => for_each body rest)
  end.
End WithRuntime.

Declare Scope engine_scope.
Delimit Scope engine_scope with engine.
Notation "x <- m ;; k" := (bind m (fun x => k))
  (at level 61, m at next level, right associativity) : engine_scope.
Notation "m ;; k" := (bind m (fun _ => k))
  (at level 61, right associativity) : engine_scope.

Section Methods.
Context `{Runtime}.
Local Open Scope engine_scope.

Definition lookup (technology : string)
  (dir : list (string * Checklist.t)) : option Checklist.t :=
  match find (fun entry => String.eqb (fst entry) technology) dir with
  | Some entry => Some (snd entry)
  | None => None
  end.

Definition load_checklist (E : Engine) (technology : string)
  : Result Checklist.t :=
  match checklist_dir E with
  | None =>
      Raise (FileNotFoundError
               ("Checklist not found for technology: " ++ technology))
  | Some dir =>
      match lookup technology dir with
      | None =>
          Raise (FileNotFoundError
                   ("Checklist not found for technology: " ++ technology))
      | Some checklist => Ok checklist
      end
  end.

Definition get_available_checklists (E : Engine) : list string :=
  match checklist_dir E with
  | None => []
  | Some dir => map fst dir
  end.

Definition _execute_check (E : Engine) (check : Check.t)
  (technology : string) : Result (list ValidationResult.t) :=
  let check := Check.set_technology technology check in
  match Check.patterns check with
  | Some _ => PatternValidator.validate (project E) check
  | None =>
      match Check.files check with
      | Some _ => FileValidator.validate (project E) check
      | None => FileValidator.validate (project E) check
      end
  end.

(** [sum(len(category['items']) for category in categories)] *)
Fixpoint count_checks (categories : list Category.t) (acc : Z)
  : Result Z :=
  match categories with
  | [] => Ok acc
  | category :: rest =>
      match getitem (Category.items category) "items" with
      | Ok items => count_checks rest (acc + Z.of_nat (List.length items))
      | Raise e => Raise e
      end
  end.

Definition failure_info (check_id category_name : string)
  (result : ValidationResult.t) : ProgressTracker.FailureInfo :=
  {| ProgressTracker.f_check_id := check_id;
     ProgressTracker.f_category := category_name;
     ProgressTracker.f_message := message result;
     ProgressTracker.f_file_path := file_path result;
     ProgressTracker.f_line_number := line_number result;
     ProgressTracker.f_severity := severity result |}.

(** The body of [for check in category['items']].  [all_results] is
    only ever extended, never read, and is left out. *)
Definition review_check (E : Engine) (technology : string)
  (progress_callback : bool) (category_name : string) (check : Check.t)
  : M unit :=
  check_id <- lift (getitem (Check.id check) "id") ;;
  description <- lift (getitem (Check.description check) "description") ;;
  tracker (ProgressTracker.update_check check_id description) ;;
  notify progress_callback ;;
  results <- lift (_execute_check E check technology) ;;
  (if forallb passed results
   then tracker ProgressTracker.record_pass
   else for_each
          (fun result =>
             if negb (passed result)
             then tracker (ProgressTracker.record_fail
                             (failure_info check_id category_name result))
             else ret tt)
          results) ;;
  notify progress_callback.

(** The body of [for category in checklist['categories']]. *)
Definition review_category (E : Engine) (technology : string)
  (progress_callback : bool) (category : Category.t) : M unit :=
  category_name <- lift (getitem (Category.name category) "name") ;;
  items <- lift (getitem (Category.items category) "items") ;;
  for_each (review_check E technology progress_callback category_name)
           items.

(** [review_code]; [t_start] and [t_end] are what [datetime.now()]
    returns in [start] and in [complete]. *)
Definition review_code (E : Engine) (technology : string)
  (progress_callback : bool) (t_start t_end : datetime)
  : M ProgressTracker.Summary :=
  checklist <- lift (load_checklist E technology) ;;
  categories <- lift (getitem (Checklist.categories checklist)
                              "categories") ;;
  total_checks <- lift (count_checks categories 0) ;;
  tracker (ProgressTracker.start total_checks t_start) ;;
  for_each (review_category E technology progress_callback) categories ;;
  tracker (ProgressTracker.complete t_end) ;;
  fun w =>
    let '(summary, self) :=
      ProgressTracker.get_summary (progress_tracker w) in
    (Ok summary, {| progress_tracker := self;
                    progress_updates := progress_updates w |}).
End Methods.
End ChecklistEngine.

(* ===================================================================== *)
(** ** main.py: the [review_code] tool *)
(* ===================================================================== *)

Module Main.
Section WithRuntime.
Context `{Runtime}.

(** The ["summary"] entry of a stored review. *)
Record ReviewSummary : Type := {
  total_checks : Z;
  completed : Z;
  passed : Z;
  failed : Z;
  skipped : Z;
  percentage : number;
  status : string
}.

Record ReviewResult : Type := {
  r_project_path : string;
  r_technology : string;
  r_summary : ReviewSummary;
  r_duration_seconds : option pyfloat;
  r_failures : list ProgressTracker.FailureInfo;
  r_status_text : string
}.

(** The payloads the tool serialises with [json.dumps]. *)
Inductive Response : Type :=
| Undetected (error : string) (available : list string)
| Reviewed (result : ReviewResult)
| NotFound (error suggestion : string)
| Failed (error type : string).

Definition str_int (z : Z) : string := NilZero.string_of_int (Z.to_int z).

(** [active_reviews[review_id] = result] *)
Fixpoint setitem (d : list (string * ReviewResult)) (review_id : string)
  (result : ReviewResult) : list (string * ReviewResult) :=
  match d with
  | [] => [(review_id, result)]
  | (k, v) :: rest =>
      if String.eqb k review_id then (k, result) :: rest
      else (k, v) :: setitem rest review_id result
  end.

(** The statements under [try], whose exception, if any, the two
    [except] clauses turn into a payload.  [detected] is what
    [detect_technology(project_path)['primary']] evaluates to; the
    global [active_reviews] is passed in and out. *)
Definition try_review (E : ChecklistEngine.Engine) (path : string)
  (tech : option string) (detected : Result string)
  (t_start t_end : datetime)
  (active_reviews : list (string * ReviewResult))
  : Result Response * list (string * ReviewResult) :=
  let run (tech : string) :=
    match ChecklistEngine.new E path with
    | Raise e => (Raise e, active_reviews)
    | Ok w =>
        match ChecklistEngine.review_code E tech true t_start t_end w with
        | (Raise e, _) => (Raise e, active_reviews)
        | (Ok s, _) =>
            let p := ProgressTracker.progress s in
            let result :=
              {| r_project_path := path;
                 r_technology := tech;
                 r_summary :=
                   {| total_checks := ProgressTracker.total p;
                      completed := ProgressTracker.completed p;
                      passed := ProgressTracker.p_passed p;
                      failed := ProgressTracker.p_failed p;
                      skipped := ProgressTracker.p_skipped p;
                      percentage := ProgressTracker.percentage p;
                      status := ProgressTracker.status s |};
                 r_duration_seconds := ProgressTracker.duration_seconds s;
                 r_failures := ProgressTracker.s_failures s;
                 r_status_text :=
                   "✅ " ++ str_int (ProgressTracker.p_passed p)
                   ++ " passed | ❌ "
                   ++ str_int (ProgressTracker.p_failed p)
                   ++ " failed | ⏭️ "
                   ++ str_int (ProgressTracker.p_skipped p)
                   ++ " skipped" |} in
            let review_id :=
              last (project_path (ChecklistEngine.project E)) ""
              ++ "_" ++ tech in
            (Ok (Reviewed result),
             setitem active_reviews review_id result)
        end
    end in
  match tech with
  | Some (String c rest) => run (String c rest)
  | _ =>
      match detected with
      | Raise e => (Raise e, active_reviews)
      | Ok tech =>
          if String.eqb tech "unknown" then
            match ChecklistEngine.new E path with
            | Raise e => (Raise e, active_reviews)
            | Ok _ =>
                (Ok (Undetected
                       "Could not detect technology. Please specify explicitly."
                       (ChecklistEngine.get_available_checklists E)),
                 active_reviews)
            end
          else run tech
      end
  end.

Definition review_code (E : ChecklistEngine.Engine) (path : string)
  (tech : option string) (detected : Result string)
  (t_start t_end : datetime)
  (active_reviews : list (string * ReviewResult))
  : Response * list (string * ReviewResult) :=
  match try_review E path tech detected t_start t_end active_reviews with
  | (Ok response, active_reviews) => (response, active_reviews)
  | (Raise (FileNotFoundError msg), active_reviews) =>
      (NotFound msg
         "Check that project_path is correct and checklist exists",
       active_reviews)
  | (Raise e, active_reviews) =>
      (Failed (str_exn e) (type_name e), active_reviews)
  end.
End WithRuntime.
End Main.

(* ===================================================================== *)
(** ** A runtime to compute with *)
(* ===================================================================== *)

(** An instance of [Runtime] on which the model runs: exact rationals
    stand for floats, a regular expression is a word of letters, digits
    and underscores searched for without regard to case (what [re] does
    for such a pattern; any other pattern is refused), and a glob is
    either [*suffix] or a plain file name, refused when it starts at the
    root. *)
Module Sample.

Definition lower (c : ascii) : ascii :=
  let n := nat_of_ascii c in
  if ((65 <=? n) && (n <=? 90))%nat then ascii_of_nat (n + 32) else c.

Fixpoint lowercase (s : string) : string :=
  match s with
  | EmptyString => EmptyString
  | String c rest => String (lower c) (lowercase rest)
  end.

Definition is_word_char (c : ascii) : bool :=
  let n := nat_of_ascii c in
  (((48 <=? n) && (n <=? 57)) || ((65 <=? n) && (n <=? 90))
   || ((97 <=? n) && (n <=? 122)) || (n =? 95))%nat.

Fixpoint is_word (s : string) : bool :=
  match s with
  | EmptyString => true
  | String c rest => is_word_char c && is_word rest
  end.

Fixpoint contains (needle hay : string) : bool :=
  String.prefix needle hay
  || match hay with
     | EmptyString => false
     | String _ rest => contains needle rest
     end.

Definition ends_with (suffix s : string) : bool :=
  let n := String.length s in
  let k := String.length suffix in
  (k <=? n)%nat && String.eqb (String.substring (n - k) k s) suffix.

Definition word_compile (s : string) : Result string :=
  if is_word s then Ok (lowercase s)
  else Raise (re_error "unsupported pattern").

Definition word_search (p line : string) : bool :=
  contains p (lowercase line).

Definition suffix_glob (pat : string) (rel : list string) : bool :=
  let name := last rel "" in
  match pat with
  | String "*" suffix => ends_with suffix name
  | _ => String.eqb pat name
  end.

(** A pattern that starts at the root is refused. *)
Definition non_relative (pat : string) : option exn :=
  match pat with
  | String "/" _ =>
      Some (NotImplementedError "Non-relative patterns are unsupported")
  | _ => None
  end.

(** One decimal place, ties to even. *)
Definition round_tenths (q : Q) : Q :=
  let x := (Qnum q * 10)%Z in
  let d := Zpos (Qden q) in
  let fl := (x / d)%Z in
  let r := (2 * (x mod d))%Z in
  let n := if (r <? d)%Z then fl
           else if (d <? r)%Z then (fl + 1)%Z
           else if Z.even fl then fl else (fl + 1)%Z in
  Qred (n # 10).

#[export] Instance runtime : Runtime := {|
  pyfloat := Q;
  percent := fun completed total =>
               Qred (inject_Z completed / inject_Z total * 100);
  round1 := round_tenths;
  total_seconds := fun micros => Qred (inject_Z micros / 1000000);
  pattern := string;
  re_compile := word_compile;
  re_search := word_search;
  glob_match := suffix_glob;
  rglob_error := non_relative
|}.

(** A readable file. *)
Definition file (rel : list string) (content : string) : Entry :=
  {| rel_parts := rel; read_text := Ok content |}.

(** A file on which [read_text] raises. *)
Definition unreadable (rel : list string) (msg : string) : Entry :=
  {| rel_parts := rel; read_text := Raise (OSError msg) |}.

(** A project at [/srv/app] holding the given entries; a name exists
    at the root when an entry is just that name. *)
Definition project_of (tree : list Entry) : Project :=
  {| project_path := ["/"; "srv"; "app"];
     root_exists := true;
     entries := tree;
     path_exists := fun filename =>
       existsb (fun f => match rel_parts f with
                         | [name] => String.eqb name filename
                         | _ => false
                         end) tree |}.

Definition check_of (i d : string) (sev : option string)
  (pats files : option (list string)) : Check.t :=
  {| Check.id := Some i; Check.description := Some d;
     Check.severity := sev; Check.patterns := pats;
     Check.files := files; Check.technology := None |}.

Definition engine_of (tree : list Entry) (cats : list Category.t)
  : ChecklistEngine.Engine :=
  {| ChecklistEngine.project := project_of tree;
     ChecklistEngine.checklist_dir :=
       Some [("python",
              {| Checklist.technology := Some "python";
                 Checklist.description := Some "Python checks";
                 Checklist.categories := Some cats |})] |}.

Definition fresh : ChecklistEngine.World :=
  {| ChecklistEngine.progress_tracker := ProgressTracker.init;
     ChecklistEngine.progress_updates := [] |}.

Definition nl : string := String "010"%char "".

(** Four lines, the third with a marker. *)
Definition one_todo : string :=
  "import os" ++ nl ++ "x = 1" ++ nl ++ "# TODO: tidy up" ++ nl ++ "y = 2".

(** Two lines, both with a marker. *)
Definition two_todos : string :=
  "# TODO first" ++ nl ++ "# todo second".

(** Three lines without a marker. *)
Definition tidy : string :=
  "import os" ++ nl ++ "x = 1" ++ nl ++ "y = 2".

Definition todo_check : Check.t :=
  check_of "Q1" "No TODO markers" (Some "warning") (Some ["TODO"]) None.

Definition readme_check : Check.t :=
  check_of "D1" "Has a README" None None (Some ["README.md"]).

Definition quality : Category.t :=
  {| Category.name := Some "Quality"; Category.items := Some [todo_check] |}.

Definition docs : Category.t :=
  {| Category.name := Some "Docs"; Category.items := Some [readme_check] |}.

(** A category whose [items] key is missing. *)
Definition broken : Category.t :=
  {| Category.name := Some "Broken"; Category.items := None |}.

End Sample.

(* ===================================================================== *)
(** ** Vocabulary of the properties *)
(* ===================================================================== *)

Section TrackerVocabulary.
Import ProgressTracker.

(** What [get_progress] reports as completed. *)
Definition done (self : t) : Z := passed self + failed self + skipped self.

Definition no_start (c : call) : bool :=
  match c with
  | Start _ _ => false
  | _ => true
  end.

End TrackerVocabulary.

Section Vocabulary.
Context `{Runtime}.
Import ValidationResult PatternValidator ChecklistEngine.
Local Open Scope list_scope.

(** The extensions [validate] scans for a check. *)
Definition scanned (P : Project) (check : Check.t) : list Entry :=
  BaseValidator.get_files_to_check P
    (_get_extensions (get (Check.technology check) "python")).

(** The result reported for a match on line [n] of file [f]. *)
Definition hit (check : Check.t) (i d : string) (f : Entry) (n : Z) : t :=
  {| check_id := i; passed := false;
     message := "Pattern match: " ++ d;
     file_path := relative_str f; line_number := n;
     severity := get (Check.severity check) "info" |}.

(** The result a clean scan ends in. *)
Definition clean (i d : string) : t :=
  {| check_id := i; passed := true; message := d;
     file_path := ""; line_number := 0; severity := "info" |}.

(** The result for an empty file set. *)
Definition no_files (i : string) : t :=
  {| check_id := i; passed := true; message := "No files found to check";
     file_path := ""; line_number := 0; severity := "info" |}.

(** The checks of a checklist in the order the runner visits them. *)
Definition checks_of (categories : list Category.t) : list Check.t :=
  flat_map (fun category => get (Category.items category) []) categories.

(** The tracker after the loop that records the failing results. *)
Definition record_failures (check_id category_name : string)
  (results : list ValidationResult.t) (self : ProgressTracker.t)
  : ProgressTracker.t :=
  fold_left
    (fun self result =>
       if negb (passed result)
       then ProgressTracker.record_fail
              (failure_info check_id category_name result) self
       else self)
    results self.

(** The tracker after one check was reviewed. *)
Definition after_check (check_id description category_name : string)
  (results : list ValidationResult.t) (self : ProgressTracker.t)
  : ProgressTracker.t :=
  let self := ProgressTracker.update_check check_id description self in
  if forallb passed results then ProgressTracker.record_pass self
  else record_failures check_id category_name results self.

(** The two snapshots the callback receives around one check. *)
Definition snapshots (progress_callback : bool)
  (check_id description category_name : string)
  (results : list ValidationResult.t) (self : ProgressTracker.t)
  : list ProgressTracker.Progress :=
  if progress_callback then
    [ fst (ProgressTracker.get_progress
             (ProgressTracker.update_check check_id description self));
      fst (ProgressTracker.get_progress
             (after_check check_id description category_name results self)) ]
  else [].

(** A check with the two keys the data model requires. *)
Definition wf_check (check : Check.t) : Prop :=
  exists i d, Check.id check = Some i /\ Check.description check = Some d.


(** The failing results of a check. *)
Definition failing (results : list ValidationResult.t)
  : list ValidationResult.t :=
  filter (fun result => negb (passed result)) results.

(** A snapshot taken while between [lo] and [hi] outcomes were
    recorded of [total]. *)
Definition within (total lo hi : Z) (p : ProgressTracker.Progress) : Prop :=
  ProgressTracker.total p = total
  /\ lo <= ProgressTracker.completed p <= hi
  /\ ProgressTracker.completed p
     = ProgressTracker.p_passed p + ProgressTracker.p_failed p
       + ProgressTracker.p_skipped p.

(** From [w] to [w'] the total stayed, [n] outcomes were recorded, and
    the snapshots handed out on the way saw counts in between. *)
Definition Advance (n : Z) (w w' : World) : Prop :=
  ProgressTracker.total_checks (progress_tracker w')
  = ProgressTracker.total_checks (progress_tracker w)
  /\ done (progress_tracker w') = done (progress_tracker w) + n
  /\ exists new,
      progress_updates w' = progress_updates w ++ new
      /\ Forall (within (ProgressTracker.total_checks (progress_tracker w))
                        (done (progress_tracker w))
                        (done (progress_tracker w) + n)) new.

(** The validator returns at most one failing result for the check. *)
Definition single_failure (E : Engine) (technology : string)
  (check : Check.t) : Prop :=
  forall results,
    _execute_check E check technology = Ok results ->
    (List.length (failing results) <= 1)%nat.

(** What [update_check] stores for a check. *)
Definition current_of (check : Check.t)
  : option ProgressTracker.CurrentCheck :=
  match Check.id check, Check.description check with
  | Some i, Some d =>
      Some {| ProgressTracker.cc_id := i;
              ProgressTracker.cc_description := d |}
  | _, _ => None
  end.

(** The current check after the checks were reviewed in turn. *)
Definition last_check (checks : list Check.t)
  (cur : option ProgressTracker.CurrentCheck)
  : option ProgressTracker.CurrentCheck :=
  fold_left (fun _ check => current_of check) checks cur.

End Vocabulary.

(* ===================================================================== *)
(** ** Vocabulary of the further properties *)
(* ===================================================================== *)

Section ReviewVocabulary.
Context `{Runtime}.
Import ValidationResult ChecklistEngine.
Local Open Scope list_scope.

(** The checks of a checklist in the order the runner visits them, each
    with the name of its category. *)
Definition tagged_checks (categories : list Category.t)
  : list (string * Check.t) :=
  flat_map
    (fun category =>
       map (pair (get (Category.name category) ""))
           (get (Category.items category) []))
    categories.

(** What the validator returns for a check, nothing if it raises. *)
Definition results_of (E : Engine) (technology : string) (check : Check.t)
  : list ValidationResult.t :=
  match _execute_check E check technology with
  | Ok results => results
  | Raise _ => []
  end.

(** Whether every result of the check passed. *)
Definition check_passes (E : Engine) (technology : string)
  (tc : string * Check.t) : bool :=
  forallb passed (results_of E technology (snd tc)).

(** The failure records a check contributes. *)
Definition check_failures (E : Engine) (technology : string)
  (tc : string * Check.t) : list ProgressTracker.FailureInfo :=
  map (failure_info (get (Check.id (snd tc)) "") (fst tc))
      (failing (results_of E technology (snd tc))).

(** The two snapshots of a check, reduced to the fields that tell them
    apart. *)
Definition marks (check : Check.t)
  : list (option ProgressTracker.CurrentCheck * bool) :=
  [ (current_of check, true); (current_of check, false) ].

End ReviewVocabulary.

Section TallyVocabulary.
Context `{Runtime}.
Import ValidationResult ChecklistEngine.
Local Open Scope list_scope.

(** The current check and the flag of a snapshot. *)
Definition mark (p : ProgressTracker.Progress)
  : option ProgressTracker.CurrentCheck * bool :=
  (ProgressTracker.p_current_check p, ProgressTracker.p_in_progress p).

(** From [w] to [w'] the checks of [tagged] were reviewed: what the
    tracker and the callback log have gained. *)
Definition Tally (E : Engine) (technology : string) (cb : bool)
  (tagged : list (string * Check.t)) (w w' : World) : Prop :=
  ProgressTracker.failures (progress_tracker w')
  = ProgressTracker.failures (progress_tracker w)
    ++ flat_map (check_failures E technology) tagged
  /\ ProgressTracker.passed (progress_tracker w')
     = ProgressTracker.passed (progress_tracker w)
       + Z.of_nat (List.length (filter (check_passes E technology) tagged))
  /\ ProgressTracker.failed (progress_tracker w')
     = ProgressTracker.failed (progress_tracker w)
       + Z.of_nat (List.length
                     (flat_map (check_failures E technology) tagged))
  /\ ProgressTracker.skipped (progress_tracker w')
     = ProgressTracker.skipped (progress_tracker w)
  /\ ProgressTracker.total_checks (progress_tracker w')
     = ProgressTracker.total_checks (progress_tracker w)
  /\ ProgressTracker.start_time (progress_tracker w')
     = ProgressTracker.start_time (progress_tracker w)
  /\ ProgressTracker.end_time (progress_tracker w')
     = ProgressTracker.end_time (progress_tracker w)
  /\ Forall (fun tc => wf_check (snd tc)) tagged
  /\ exists new,
      progress_updates w' = progress_updates w ++ new
      /\ map mark new
         = if cb then flat_map (fun tc => marks (snd tc)) tagged else [].

End TallyVocabulary.

(* ===================================================================== *)
(** ** main.py: the other tools that use the engine *)
(* ===================================================================== *)

Module Tools.
Section WithRuntime.
Context `{Runtime}.
Local Open Scope result_scope.

(** [review_id in active_reviews] and [active_reviews[review_id]] *)
Definition lookup_review (d : list (string * Main.ReviewResult))
  (review_id : string) : option Main.ReviewResult :=
  match find (fun entry => String.eqb (fst entry) review_id) d with
  | Some entry => Some (snd entry)
  | None => None
  end.

(** The payloads of [get_review_status]. *)
Inductive StatusResponse : Type :=
| Stored (result : Main.ReviewResult)
| NoReview (error suggestion : string)
| StatusError (error : string).

(** [get_review_status]; [detected] is what
    [detect_technology(project_path)['primary']] evaluates to. *)
Definition get_review_status (E : ChecklistEngine.Engine)
  (tech : option string) (detected : Result string)
  (active_reviews : list (string * Main.ReviewResult)) : StatusResponse :=
  let project_name := last (project_path (ChecklistEngine.project E)) "" in
  let technology :=
    match tech with
    | Some (String c rest) => Ok (String c rest)
    | _ => detected
    end in
  match technology with
  | Raise e => StatusError (str_exn e)
  | Ok technology =>
      let review_id := (project_name ++ "_" ++ technology)%string in
      match lookup_review active_reviews review_id with
      | Some result => Stored result
      | None =>
          NoReview "No active review found for this project"
                   "Use review_code() to start a new review"
      end
  end.










End WithRuntime.
End Tools.

(* ===================================================================== *)
(** ** technology_detector.py *)
(* ===================================================================== *)

(** What the detector needs of the Python runtime beyond [Runtime]: the
    float arithmetic on scores, and the order in which a [set] of
    strings is listed, of which only the elements are known. *)
Class DetectorRuntime `{Runtime} : Type := {
  (** [score + ext_count / 10] *)
  add_tenths : number -> Z -> pyfloat;
  (** [x > 0] *)
  float_positive : pyfloat -> bool;
  (** [a < b] when one of the two is a float *)
  mixed_lt : number -> number -> bool;
  (** [min(score / 5, 1.0)] *)
  normalized : number -> pyfloat;
  (** the literal [0.0] *)
  float_zero : pyfloat;
  (** [list(set(xs))] *)
  list_set : list string -> list string;
  list_set_NoDup : forall xs, NoDup (list_set xs);
  list_set_In : forall xs x, In x (list_set xs) <-> In x xs
}.

Module TechnologyDetector.

Record Indicators : Type := {
  ind_files : list string;
  ind_extensions : list string;
  ind_frameworks : list (string * list string)
}.

(** The class attribute, in the order its keys are written. *)
Definition TECH_INDICATORS : list (string * Indicators) :=
  [ ("python",
     {| ind_files := ["requirements.txt"; "setup.py"; "pyproject.toml";
                      "Pipfile"];
        ind_extensions := [".py"];
        ind_frameworks :=
          [ ("django", ["manage.py"; "settings.py"; "wsgi.py"]);
            ("flask", ["app.py"; "flask"]);
            ("fastapi", ["fastapi"; "uvicorn"]) ] |});
    ("javascript",
     {| ind_files := ["package.json"; "package-lock.json"; "yarn.lock"];
        ind_extensions := [".js"; ".jsx"];
        ind_frameworks :=
          [ ("react", ["react"; "jsx"]);
            ("vue", ["vue"; ".vue"]);
            ("node", ["express"; "node"]) ] |});
    ("typescript",
     {| ind_files := ["tsconfig.json"];
        ind_extensions := [".ts"; ".tsx"];
        ind_frameworks :=
          [ ("react", ["react"]);
            ("angular", ["angular"]);
            ("nest", ["nestjs"]) ] |});
    ("java",
     {| ind_files := ["pom.xml"; "build.gradle"; "gradlew"];
        ind_extensions := [".java"];
        ind_frameworks :=
          [ ("spring", ["spring-boot"; "SpringApplication"]);
            ("maven", ["pom.xml"]);
            ("gradle", ["build.gradle"]) ] |});
    ("go",
     {| ind_files := ["go.mod"; "go.sum"];
        ind_extensions := [".go"];
        ind_frameworks := [] |});
    ("rust",
     {| ind_files := ["Cargo.toml"; "Cargo.lock"];
        ind_extensions := [".rs"];
        ind_frameworks := [] |}) ].

(** [kw in content] *)
Fixpoint str_contains (kw content : string) : bool :=
  String.prefix kw content
  || match content with
     | EmptyString => false
     | String _ rest => str_contains kw rest
     end.

(** An entry of the list [detected]. *)
Record Candidate `{Runtime} : Type := {
  cand_technology : string;
  cand_score : number;
  cand_frameworks : list string
}.

(** The dict [detect] returns. *)
Record Detection `{Runtime} : Type := {
  primary : string;
  frameworks : list string;
  confidence : pyfloat
}.

Section WithRuntime.
Context `{DetectorRuntime}.

Definition _file_exists (P : Project) (filename : string) : bool :=
  path_exists P filename
  || existsb (fun subdir => path_exists P (subdir ++ "/" ++ filename))
             ["src"; "app"; "config"].

Definition _count_extensions (P : Project) (extensions : list string) : Z :=
  fold_left
    (fun count ext =>
       count + Z.of_nat (List.length (BaseValidator.rglob P ("*" ++ ext))))
    extensions 0.

(** [read f] is what [read_text] does on [project_path / f]. *)
Definition _detect_frameworks (P : Project) (read : string -> Result string)
  (indicators : Indicators) (config_file : string) : list string :=
  if negb (path_exists P config_file) then []
  else
    match read config_file with
    | Raise _ => []
    | Ok content =>
        map fst
            (filter (fun fw => existsb (fun kw => str_contains kw content)
                                       (snd fw))
                    (ind_frameworks indicators))
    end.

(** [score > 0] *)
Definition positive (score : number) : bool :=
  match score with
  | PyInt z => z >? 0
  | PyFloat x => float_positive x
  end.

(** [a < b] *)
Definition score_lt (a b : number) : bool :=
  match a, b with
  | PyInt x, PyInt y => x <? y
  | _, _ => mixed_lt a b
  end.

(** [score + 2]; on a float score, adding [2] is adding [20 / 10]. *)
Definition add_two (score : number) : number :=
  match score with
  | PyInt z => PyInt (z + 2)
  | PyFloat _ => PyFloat (add_tenths score 20)
  end.

(** [score += min(ext_count / 10, 3)]: the quotient is a float, and
    [min] returns the int [3] when the quotient is greater, which it is
    from 31 files on. *)
Definition add_extension_points (score : number) (ext_count : Z) : number :=
  if ext_count >? 30 then
    match score with
    | PyInt z => PyInt (z + 3)
    | PyFloat _ => PyFloat (add_tenths score 30)
    end
  else PyFloat (add_tenths score ext_count).

(** The loop over [indicators["files"]]: the score and the frameworks
    found. *)
Definition scan_files (P : Project) (read : string -> Result string)
  (tech : string) (indicators : Indicators) : number * list string :=
  fold_left
    (fun '(score, found) file =>
       if _file_exists P file then
         (add_two score,
          if str_in tech ["python"; "javascript"; "typescript"; "java"]
          then (found ++ _detect_frameworks P read indicators file)%list
          else found)
       else (score, found))
    (ind_files indicators) (PyInt 0, []).

(** The body of the loop over the technologies: the entry appended to
    [detected], if any. *)
Definition candidate (P : Project) (read : string -> Result string)
  (tech : string) (indicators : Indicators) : option Candidate :=
  let '(score, found) := scan_files P read tech indicators in
  let ext_count := _count_extensions P (ind_extensions indicators) in
  let score :=
    if ext_count >? 0 then add_extension_points score ext_count
    else score in
  if positive score then
    Some {| cand_technology := tech; cand_score := score;
            cand_frameworks := list_set found |}
  else None.

(** [detected.sort(key=lambda x: x["score"], reverse=True)]: the sort
    is stable, so entries of equal score keep their order. *)
Fixpoint insert (c : Candidate) (sorted : list Candidate) : list Candidate :=
  match sorted with
  | [] => [c]
  | d :: rest =>
      if score_lt (cand_score c) (cand_score d) then d :: insert c rest
      else c :: d :: rest
  end.

Definition sort (detected : list Candidate) : list Candidate :=
  fold_right insert [] detected.

Definition detected_candidates (P : Project) (read : string -> Result string)
  : list Candidate :=
  flat_map
    (fun entry =>
       match candidate P read (fst entry) (snd entry) with
       | Some c => [c]
       | None => []
       end)
    TECH_INDICATORS.

Definition detect (P : Project) (read : string -> Result string)
  : Detection :=
  match sort (detected_candidates P read) with
  | [] => {| primary := "unknown"; frameworks := [];
             confidence := float_zero |}
  | top :: _ =>
      {| primary := cand_technology top;
         frameworks := cand_frameworks top;
         confidence := normalized (cand_score top) |}
  end.

(** [detect_technology(project_path)] *)
Definition detect_technology (P : Project) (read : string -> Result string)
  (path : string) : Result Detection :=
  if root_exists P then Ok (detect P read)
  else Raise (ValueError ("Project path does not exist: " ++ path)).

End WithRuntime.
End TechnologyDetector.

(* ===================================================================== *)
(** ** More to compute with *)
(* ===================================================================== *)

Module MoreSample.
Import Sample.

(** Scores as exact rationals. *)
Definition to_Q (score : @number runtime) : Q :=
  match score with
  | PyInt z => inject_Z z
  | PyFloat x => x
  end.

#[export] Instance detector_runtime : @DetectorRuntime runtime := {|
  add_tenths := fun score n => Qred (to_Q score + inject_Z n / 10);
  float_positive := fun x => negb (Qle_bool x 0);
  mixed_lt := fun a b => negb (Qle_bool (to_Q b) (to_Q a));
  normalized := fun score =>
                  if Qle_bool (to_Q score / 5) 1 then Qred (to_Q score / 5)
                  else 1%Q;
  float_zero := 0%Q;
  list_set := nodup string_dec;
  list_set_NoDup := NoDup_nodup string_dec;
  list_set_In := nodup_In string_dec
|}.

(** A check whose [id] key is missing. *)
Definition no_id_check : Check.t :=
  {| Check.id := None; Check.description := Some "No TODO markers";
     Check.severity := None; Check.patterns := Some ["TODO"];
     Check.files := None; Check.technology := None |}.

(** A check whose [description] key is missing. *)
Definition no_description_check : Check.t :=
  {| Check.id := Some "Q2"; Check.description := None;
     Check.severity := None; Check.patterns := Some ["TODO"];
     Check.files := None; Check.technology := None |}.

(** A check whose pattern the sample runtime refuses to compile. *)
Definition bad_pattern_check : Check.t :=
  check_of "Q3" "No open brackets" None (Some ["("]) None.

(** A check with glob patterns and no file names. *)
Definition glob_check : Check.t :=
  check_of "D2" "Has markdown" None (Some ["*.md"]) None.

(** A check whose glob pattern starts at the root. *)
Definition absolute_glob_check : Check.t :=
  check_of "D3" "Has markdown" None (Some ["/srv/app/*.md"]) None.

(** A check with neither patterns nor files. *)
Definition placeholder_check : Check.t :=
  check_of "P1" "Placeholder" None None None.

(** A category with a check that cannot be reviewed. *)
Definition faulty : Category.t :=
  {| Category.name := Some "Faulty"; Category.items := Some [no_id_check] |}.

(** A project that lives under a directory named [build]. *)
Definition under_build (tree : list Entry) : Project :=
  {| project_path := ["/"; "srv"; "build"; "app"];
     root_exists := true;
     entries := tree;
     path_exists := fun _ => false |}.

(** Reading a file at the root of a project made by [project_of]. *)
Definition read_in (tree : list Entry) (filename : string) : Result string :=
  match find (fun f => match rel_parts f with
                       | [name] => String.eqb name filename
                       | _ => false
                       end) tree with
  | Some f => read_text f
  | None => Raise (OSError "No such file or directory")
  end.

(** The checklist the sample engine loads. *)
Definition sample_checklist (cats : list Category.t) : Checklist.t :=
  {| Checklist.technology := Some "python";
     Checklist.description := Some "Python checks";
     Checklist.categories := Some cats |}.

(** A result stored by an earlier review of another project. *)
Definition old_result : @Main.ReviewResult runtime :=
  {| Main.r_project_path := "/srv/other";
     Main.r_technology := "go";
     Main.r_summary :=
       {| Main.total_checks := 0; Main.completed := 0; Main.passed := 0;
          Main.failed := 0; Main.skipped := 0; Main.percentage := PyInt 0;
          Main.status := "completed" |};
     Main.r_duration_seconds := None;
     Main.r_failures := [];
     Main.r_status_text := "" |}.

(** An engine on a project whose path does not exist. *)
Definition missing_engine : ChecklistEngine.Engine :=
  {| ChecklistEngine.project :=
       {| project_path := ["/"; "srv"; "gone"]; root_exists := false;
          entries := []; path_exists := fun _ => false |};
     ChecklistEngine.checklist_dir := Some [] |}.

End MoreSample.

(* ===================================================================== *)
(** * Properties *)
(* ===================================================================== *)

(** ** The progress model *)

Section TrackerFacts.
Context `{Runtime}.
Import ProgressTracker.

Lemma get_progress_state (self : t) : snd (get_progress self) = self.
Proof. reflexivity. Qed.

Lemma get_summary_state (self : t) : snd (get_summary self) = self.
Proof. reflexivity. Qed.

Lemma completed_done (self : t) :
  completed (fst (get_progress self)) = done self.
Proof. reflexivity. Qed.

(** Every call other than [start] moves the count by one if it records
    an outcome and leaves it alone otherwise; none but [start] touches
    the total. *)
Lemma done_apply_call (self : t) (c : call) :
  (forall total now, c <> Start total now) ->
  done (apply_call self c) = done self + (if is_record c then 1 else 0)
  /\ total_checks (apply_call self c) = total_checks self.
Proof.
  intros Hc. destruct c; cbn; unfold done; cbn; try (split; lia).
  exfalso. eapply Hc. reflexivity.
Qed.

Lemma done_run (calls : list call) (self : t) :
  forallb no_start calls = true ->
  done (run calls self)
  = done self + Z.of_nat (List.length (filter is_record calls))
  /\ total_checks (run calls self) = total_checks self.
Proof.
  revert self. induction calls as [|c calls IH]; intros self Hns.
  - cbn. split; lia.
  - cbn in Hns. apply andb_true_iff in Hns as [Hc Hns].
    change (run (c :: calls) self) with (run calls (apply_call self c)).
    destruct (IH (apply_call self c) Hns) as [IHd IHt].
    assert (Hc' : forall total now, c <> Start total now)
      by (intros total now ->; discriminate).
    destruct (done_apply_call self c Hc') as [Hd Ht].
    rewrite IHd, IHt, Hd, Ht. cbn [filter].
    destruct (is_record c); cbn [List.length]; split; lia.
Qed.

Lemma start_keeps_current_check total now self :
  current_check (start total now self) = current_check self.
Proof. reflexivity. Qed.

Lemma complete_keeps_current_check now self :
  current_check (complete now self) = current_check self.
Proof. reflexivity. Qed.

End TrackerFacts.

(** ** The pattern strategy *)

Section PatternFacts.
Context `{Runtime}.
Import ValidationResult PatternValidator.
Local Open Scope list_scope.

Lemma enumerate_app {A} (xs ys : list A) (start : Z) :
  enumerate (xs ++ ys) start
  = enumerate xs start ++ enumerate ys (start + Z.of_nat (List.length xs)).
Proof.
  revert start. induction xs as [|x xs IH]; intros start; cbn [app enumerate].
  - cbn. f_equal. lia.
  - rewrite IH. cbn [List.length]. do 3 f_equal. lia.
Qed.

(** *** The loops only append to [results] *)

Lemma search_lines_acc check f p lines acc :
  search_lines check f p lines acc
  = (acc ++ fst (search_lines check f p lines []),
     snd (search_lines check f p lines [])).
Proof.
  revert acc. induction lines as [|[n line] lines IH]; intros acc.
  - cbn. now rewrite app_nil_r.
  - cbn [search_lines]. destruct (re_search p line); [|apply IH].
    destruct (match_result check f n) as [r|e].
    + rewrite (IH (acc ++ [r])), (IH ([] ++ [r])). cbn [fst snd].
      now rewrite <- app_assoc.
    + cbn. now rewrite app_nil_r.
Qed.

Lemma search_patterns_acc check f lines patterns acc :
  search_patterns check f lines patterns acc
  = (acc ++ fst (search_patterns check f lines patterns []),
     snd (search_patterns check f lines patterns [])).
Proof.
  revert acc. induction patterns as [|ps patterns IH]; intros acc.
  - cbn. now rewrite app_nil_r.
  - cbn [search_patterns]. destruct (re_compile ps) as [p|e].
    + rewrite (search_lines_acc check f p _ acc).
      destruct (search_lines check f p (enumerate lines 1) [])
        as [new [e|]]; cbn [fst snd].
      * reflexivity.
      * rewrite (IH (acc ++ new)), (IH new). cbn [fst snd].
        now rewrite <- app_assoc.
    + cbn. now rewrite app_nil_r.
Qed.

Lemma try_file_acc check f patterns acc :
  try_file check f patterns acc
  = (acc ++ fst (try_file check f patterns []),
     snd (try_file check f patterns [])).
Proof.
  unfold try_file. destruct (read_text f) as [content|e].
  - apply search_patterns_acc.
  - cbn. now rewrite app_nil_r.
Qed.

Lemma check_files_acc check patterns files acc :
  check_files check patterns files acc
  = rbind (check_files check patterns files [])
          (fun new => Ok (acc ++ new)).
Proof.
  revert acc. induction files as [|f files IH]; intros acc.
  - cbn. now rewrite app_nil_r.
  - cbn [check_files]. rewrite (try_file_acc check f patterns acc).
    destruct (try_file check f patterns []) as [new [e|]]; cbn [fst snd].
    + cbn [app]. destruct (error_result check f e) as [r|e']; cbn [rbind].
      * rewrite (IH ((acc ++ new) ++ [r])), (IH (new ++ [r])).
        destruct (check_files check patterns files []) as [more|e'];
          cbn [rbind]; [|reflexivity].
        now rewrite <- !app_assoc.
      * reflexivity.
    + cbn [app]. rewrite (IH (acc ++ new)), (IH new).
      destruct (check_files check patterns files []) as [more|e'];
        cbn [rbind]; [|reflexivity].
      now rewrite <- app_assoc.
Qed.




End PatternFacts.

Section PatternClaims.
Context `{Runtime}.
Import ValidationResult PatternValidator.
Local Open Scope list_scope.

Lemma search_lines_hits check f p lines i d :
  Check.id check = Some i ->
  Check.description check = Some d ->
  search_lines check f p lines []
  = (map (fun nl => hit check i d f (fst nl))
         (filter (fun nl => re_search p (snd nl)) lines),
     None).
Proof.
  intros Hid Hd. induction lines as [|[n line] lines IH]; [reflexivity|].
  cbn [search_lines filter snd]. destruct (re_search p line); [|exact IH].
  unfold match_result. rewrite Hid, Hd. cbn [getitem rbind].
  rewrite search_lines_acc, IH. reflexivity.
Qed.

Lemma filter_none {A} (keep : A -> bool) (xs : list A) :
  (forall x, In x xs -> keep x = false) -> filter keep xs = [].
Proof.
  induction xs as [|x xs IH]; intros Hk; [reflexivity|].
  cbn. rewrite (Hk x (or_introl eq_refl)). apply IH.
  intros y Hy. apply Hk. now right.
Qed.

Lemma In_enumerate {A} (xs : list A) (start n : Z) (x : A) :
  In (n, x) (enumerate xs start) -> In x xs.
Proof.
  revert start. induction xs as [|y xs IH]; intros start; cbn; [tauto|].
  intros [Heq|Hin]; [left; congruence | right; eauto].
Qed.

(** The only matching line of a file is the only one reported. *)
Lemma hits_single (p : pattern) (before after : list string) (line : string) :
  re_search p line = true ->
  (forall l, In l (before ++ after) -> re_search p l = false) ->
  filter (fun nl => re_search p (snd nl))
         (enumerate (before ++ line :: after) 1)
  = [(Z.of_nat (List.length before) + 1, line)].
Proof.
  intros Hhit Hrest.
  rewrite enumerate_app, filter_app. cbn [enumerate filter snd].
  rewrite Hhit.
  rewrite !filter_none.
  - cbn [app]. do 2 f_equal. lia.
  - intros [n l] Hin. apply In_enumerate in Hin. cbn [snd].
    apply Hrest, in_or_app. now right.
  - intros [n l] Hin. apply In_enumerate in Hin. cbn [snd].
    apply Hrest, in_or_app. now left.
Qed.

(** A scan in which every file is read, every pattern compiles and no
    line matches produces nothing. *)
Lemma check_files_clean check patterns files :
  Forall (fun f =>
            exists content, read_text f = Ok content
            /\ Forall (fun ps =>
                         exists p, re_compile ps = Ok p
                         /\ forall line, In line (split_lines content) ->
                                         re_search p line = false)
                      patterns) files ->
  check_files check patterns files [] = Ok [].
Proof.
  induction 1 as [|f files (content & Hread & Hpats) _ IH]; [reflexivity|].
  cbn [check_files]. unfold try_file. rewrite Hread.
  assert (Hscan : search_patterns check f (split_lines content) patterns []
                  = ([], None)).
  { clear IH.
    induction Hpats as [|ps patterns (p & Hc & Hno) _ IHp]; [reflexivity|].
    cbn [search_patterns]. rewrite Hc.
    assert (Hl : forall lines start,
               (forall line, In line lines -> re_search p line = false) ->
               search_lines check f p (enumerate lines start) []
               = ([], None)).
    { induction lines as [|l lines IHl]; intros start Hl; [reflexivity|].
      cbn [enumerate search_lines].
      rewrite (Hl l (or_introl eq_refl)). apply IHl.
      intros l' Hin. apply Hl. now right. }
    rewrite (Hl _ 1 Hno). exact IHp. }
  rewrite Hscan. exact IH.
Qed.

(** [validate] on a check that declares patterns and has an id. *)
Lemma validate_scan P check i pat pats :
  Check.id check = Some i ->
  Check.patterns check = Some (pat :: pats) ->
  validate P check
  = match scanned P check with
    | [] => Ok [no_files i]
    | _ :: _ =>
        rbind (check_files check (pat :: pats) (scanned P check) [])
              (fun results =>
                 match results with
                 | [] => rbind (getitem (Check.description check)
                                        "description")
                               (fun d => Ok [clean i d])
                 | _ :: _ => Ok results
                 end)
    end.
Proof.
  intros Hid Hp. unfold validate, scanned. rewrite Hp, Hid. cbn [get].
  destruct (BaseValidator.get_files_to_check P _); reflexivity.
Qed.

(** C3.  A check with the single pattern [pat], run on a project whose
    only scanned file has exactly one line on which the pattern is
    found, yields exactly one result: it is failing, carries the path
    of the file relative to the project root, and its line number is
    the 1-based position of that line, so 3 when two lines come before
    it. *)
Theorem validate_single_match P check i d pat p f content before line after :
  Check.id check = Some i ->
  Check.description check = Some d ->
  Check.patterns check = Some [pat] ->
  re_compile pat = Ok p ->
  scanned P check = [f] ->
  read_text f = Ok content ->
  split_lines content = before ++ line :: after ->
  re_search p line = true ->
  (forall l, In l (before ++ after) -> re_search p l = false) ->
  validate P check
  = Ok [ {| check_id := i;
            passed := false;
            message := "Pattern match: " ++ d;
            file_path := String.concat "/" (rel_parts f);
            line_number := Z.of_nat (List.length before) + 1;
            severity := get (Check.severity check) "info" |} ].
Proof.
  intros Hid Hd Hp Hc Hf Hread Hlines Hhit Hrest.
  rewrite (validate_scan P check i pat [] Hid Hp), Hf.
  cbn [check_files]. unfold try_file. rewrite Hread.
  cbn [search_patterns]. rewrite Hc.
  rewrite (search_lines_hits check f p _ i d Hid Hd), Hlines.
  rewrite (hits_single p before after line Hhit Hrest).
  reflexivity.
Qed.

(** C6.  For a check with declared patterns: when the file set is not
    empty and the scan has produced no result, [validate] returns the
    single passing result that carries the check's description; a scan
    in which every file is read, every pattern compiles and no line
    matches is such a scan; and when the file set is empty it returns
    the single passing result "No files found to check" instead. *)
Theorem validate_clean P check i d pat pats :
  Check.id check = Some i ->
  Check.description check = Some d ->
  Check.patterns check = Some (pat :: pats) ->
  (scanned P check <> [] ->
   check_files check (pat :: pats) (scanned P check) [] = Ok [] ->
   validate P check
   = Ok [ {| check_id := i; passed := true; message := d;
             file_path := ""; line_number := 0; severity := "info" |} ])
  /\ (scanned P check <> [] ->
      Forall (fun f =>
                exists content, read_text f = Ok content
                /\ Forall (fun ps =>
                             exists p, re_compile ps = Ok p
                             /\ forall l, In l (split_lines content) ->
                                          re_search p l = false)
                          (pat :: pats)) (scanned P check) ->
      validate P check
      = Ok [ {| check_id := i; passed := true; message := d;
                file_path := ""; line_number := 0; severity := "info" |} ])
  /\ (scanned P check = [] ->
      validate P check
      = Ok [ {| check_id := i; passed := true;
                message := "No files found to check";
                file_path := ""; line_number := 0; severity := "info" |} ]).
Proof.
  intros Hid Hd Hp.
  assert (Hclean : scanned P check <> [] ->
                   check_files check (pat :: pats) (scanned P check) []
                   = Ok [] ->
                   validate P check = Ok [clean i d]).
  { intros Hne Hscan. rewrite (validate_scan P check i pat pats Hid Hp).
    destruct (scanned P check) as [|f files]; [congruence|].
    rewrite Hscan, Hd. reflexivity. }
  split; [exact Hclean|]. split.
  - intros Hne Hall. apply Hclean; [exact Hne|].
    now apply check_files_clean.
  - intros Hempty. rewrite (validate_scan P check i pat pats Hid Hp), Hempty.
    reflexivity.
Qed.

End PatternClaims.

(** ** The file-existence strategy and the dispatch *)

Section FileClaims.
Context `{Runtime}.
Import ValidationResult.
Local Open Scope list_scope.


(** C2.  The engine picks the strategy by the shape of the check: a
    check with a [patterns] key goes to the pattern validator, any
    other check, with a [files] key or with neither, goes to the file
    validator; either sees the check tagged with the technology. *)
Theorem execute_check_dispatch E check technology :
  (forall pats, Check.patterns check = Some pats ->
     ChecklistEngine._execute_check E check technology
     = PatternValidator.validate (ChecklistEngine.project E)
         (Check.set_technology technology check))
  /\ (Check.patterns check = None ->
      ChecklistEngine._execute_check E check technology
      = FileValidator.validate (ChecklistEngine.project E)
          (Check.set_technology technology check)).
Proof.
  unfold ChecklistEngine._execute_check.
  cbn [Check.set_technology Check.patterns Check.files].
  split.
  - intros pats ->. reflexivity.
  - intros ->. destruct (Check.files check); reflexivity.
Qed.

End FileClaims.

(** ** The runner *)

Section EngineFacts.
Context `{Runtime}.
Import ValidationResult ChecklistEngine.
Local Open Scope list_scope.

Lemma for_each_record_failures check_id category_name results w :
  for_each
    (fun result =>
       if negb (passed result)
       then tracker (ProgressTracker.record_fail
                       (failure_info check_id category_name result))
       else ret tt)
    results w
  = (Ok tt,
     {| progress_tracker :=
          record_failures check_id category_name results
                          (progress_tracker w);
        progress_updates := progress_updates w |}).
Proof.
  revert w. induction results as [|r results IH]; intros w.
  - destruct w. reflexivity.
  - cbn [for_each]. unfold bind at 1.
    destruct (negb (passed r)) eqn:Hr.
    + cbn [tracker]. rewrite IH. cbn [progress_tracker progress_updates].
      unfold record_failures. cbn [fold_left]. now rewrite Hr.
    + cbn [ret]. rewrite IH. unfold record_failures.
      cbn [fold_left]. now rewrite Hr.
Qed.

(** One pass through the body of the inner loop, when nothing raises. *)
Lemma review_check_run E technology cb category_name check w i d results :
  Check.id check = Some i ->
  Check.description check = Some d ->
  _execute_check E check technology = Ok results ->
  review_check E technology cb category_name check w
  = (Ok tt,
     {| progress_tracker :=
          after_check i d category_name results (progress_tracker w);
        progress_updates :=
          progress_updates w
          ++ snapshots cb i d category_name results (progress_tracker w) |}).
Proof.
  intros Hid Hd Hexec. unfold review_check, bind, lift.
  rewrite Hid, Hd. cbn [getitem tracker]. unfold snapshots, after_check.
  destruct cb; cbn [notify ProgressTracker.get_progress progress_tracker
                    progress_updates fst snd];
    rewrite Hexec; destruct (forallb passed results);
    cbn [tracker progress_tracker progress_updates];
    rewrite ?for_each_record_failures;
    cbn [progress_tracker progress_updates];
    rewrite <- ?app_assoc, ?app_nil_r; reflexivity.
Qed.

(** The body of the inner loop raises exactly when the check lacks its
    id or its description or when the validator raises. *)
Lemma review_check_ok E technology cb category_name check w w' :
  review_check E technology cb category_name check w = (Ok tt, w') ->
  exists i d results,
    Check.id check = Some i
    /\ Check.description check = Some d
    /\ _execute_check E check technology = Ok results
    /\ w' = {| progress_tracker :=
                 after_check i d category_name results (progress_tracker w);
               progress_updates :=
                 progress_updates w
                 ++ snapshots cb i d category_name results
                              (progress_tracker w) |}.
Proof.
  intros Hrun.
  destruct (Check.id check) as [i|] eqn:Hid;
    [|unfold review_check, bind, lift in Hrun; rewrite Hid in Hrun;
      discriminate].
  destruct (Check.description check) as [d|] eqn:Hd;
    [|unfold review_check, bind, lift in Hrun; rewrite Hid, Hd in Hrun;
      discriminate].
  destruct (_execute_check E check technology) as [results|e] eqn:Hexec.
  - rewrite (review_check_run E technology cb category_name check w
               i d results Hid Hd Hexec) in Hrun.
    exists i, d, results. repeat split; congruence.
  - unfold review_check, bind, lift in Hrun. rewrite Hid, Hd in Hrun.
    cbn [getitem tracker] in Hrun.
    destruct cb; cbn [notify ProgressTracker.get_progress] in Hrun;
      rewrite Hexec in Hrun; discriminate.
Qed.

(** A loop that ends normally relates its end points by any relation
    that holds of no step and is carried along by one. *)
Lemma for_each_rule {A} (body : A -> M unit)
  (R : list A -> World -> World -> Prop) :
  (forall w, R [] w w) ->
  (forall x xs w w1 w2,
      body x w = (Ok tt, w1) -> R xs w1 w2 -> R (x :: xs) w w2) ->
  forall xs w w',
    for_each body xs w = (Ok tt, w') -> R xs w w'.
Proof.
  intros Hnil Hcons. induction xs as [|x xs IH]; intros w w' Hrun.
  - cbn in Hrun. injection Hrun as <-. apply Hnil.
  - cbn [for_each] in Hrun. unfold bind in Hrun.
    destruct (body x w) as [[[]|e] w1] eqn:Hx; [|discriminate].
    eapply Hcons; eauto.
Qed.


Lemma review_category_ok E technology cb category w w' :
  review_category E technology cb category w = (Ok tt, w') ->
  exists category_name items,
    Category.name category = Some category_name
    /\ Category.items category = Some items
    /\ for_each (review_check E technology cb category_name) items w
       = (Ok tt, w').
Proof.
  unfold review_category, bind, lift. intros Hrun.
  destruct (Category.name category) as [category_name|]; [|discriminate].
  destruct (Category.items category) as [items|]; [|discriminate].
  cbn [getitem] in Hrun. eauto.
Qed.

(** The two nested loops visit the checks of [checks_of] one by one. *)
Lemma review_loop_rule E technology cb
  (R : list Check.t -> World -> World -> Prop) :
  (forall w, R [] w w) ->
  (forall category_name check checks w w1 w2,
      review_check E technology cb category_name check w = (Ok tt, w1) ->
      R checks w1 w2 -> R (check :: checks) w w2) ->
  forall categories w w',
    for_each (review_category E technology cb) categories w = (Ok tt, w') ->
    R (checks_of categories) w w'.
Proof.
  intros Hnil Hcons categories.
  apply (for_each_rule (review_category E technology cb)
           (fun categories w w' => R (checks_of categories) w w')).
  - exact Hnil.
  - intros category rest w w1 w2 Hcat Hrest.
    apply review_category_ok in Hcat
      as (category_name & items & _ & Hitems & Hloop).
    cbn [checks_of flat_map]. rewrite Hitems. cbn [get].
    clear Hitems.
    revert w2 Hrest. fold (checks_of rest). generalize (checks_of rest).
    revert items w w1 Hloop.
    apply (for_each_rule (review_check E technology cb category_name)
             (fun items w w1 =>
                forall later w2, R later w1 w2 -> R (items ++ later) w w2)).
    + intros w later w2 Hlater. exact Hlater.
    + intros check items w wa wb Hcheck Hitems later w2 Hlater.
      cbn [app]. eapply Hcons; eauto.
Qed.

Lemma count_checks_ok categories acc n :
  count_checks categories acc = Ok n ->
  n = acc + Z.of_nat (List.length (checks_of categories)).
Proof.
  revert acc. induction categories as [|category rest IH]; intros acc.
  - cbn. intros [= <-]. lia.
  - cbn [count_checks checks_of flat_map].
    destruct (Category.items category) as [items|]; [|discriminate].
    cbn [getitem get]. intros Hrest. apply IH in Hrest.
    fold (checks_of rest). rewrite length_app. lia.
Qed.

(** A category without an [items] key stops the count with the
    [KeyError] of the lookup. *)
Lemma count_checks_missing categories acc :
  Exists (fun category => Category.items category = None) categories ->
  count_checks categories acc = Raise (KeyError "items").
Proof.
  intros Hex. revert acc.
  induction Hex as [category rest Hmiss|category rest _ IH]; intros acc;
    cbn [count_checks].
  - now rewrite Hmiss.
  - destruct (Category.items category); [apply IH | reflexivity].
Qed.

(** What a review that returns has gone through. *)
Lemma review_code_ok E technology cb t_start t_end w s w' :
  review_code E technology cb t_start t_end w = (Ok s, w') ->
  exists checklist categories wl,
    load_checklist E technology = Ok checklist
    /\ Checklist.categories checklist = Some categories
    /\ for_each (review_category E technology cb) categories
         {| progress_tracker :=
              ProgressTracker.start
                (Z.of_nat (List.length (checks_of categories)))
                t_start (progress_tracker w);
            progress_updates := progress_updates w |}
       = (Ok tt, wl)
    /\ s = fst (ProgressTracker.get_summary
                  (ProgressTracker.complete t_end (progress_tracker wl)))
    /\ w' = {| progress_tracker :=
                 ProgressTracker.complete t_end (progress_tracker wl);
               progress_updates := progress_updates wl |}.
Proof.
  unfold review_code, bind, lift. intros Hrun.
  destruct (load_checklist E technology) as [checklist|] eqn:Hload;
    [|discriminate].
  destruct (Checklist.categories checklist) as [categories|] eqn:Hcats;
    [|discriminate].
  cbn [getitem] in Hrun.
  destruct (count_checks categories 0) as [n|] eqn:Hn; [|discriminate].
  apply count_checks_ok in Hn. cbn [Z.add] in Hn. subst n.
  cbn [tracker] in Hrun.
  destruct (for_each _ categories _) as [[[]|] wl] eqn:Hloop;
    [|discriminate].
  cbn [progress_tracker progress_updates ProgressTracker.get_summary
       ProgressTracker.get_progress] in Hrun.
  injection Hrun as <- <-.
  exists checklist, categories, wl. repeat split; assumption.
Qed.

End EngineFacts.

(** ** Reviews of well-formed checklists return *)

Section Totality.
Context `{Runtime}.
Import ValidationResult ChecklistEngine.
Local Open Scope list_scope.








End Totality.

(** ** Claims about the runner *)

Section EngineClaims.
Context `{Runtime}.
Import ValidationResult ChecklistEngine.
Local Open Scope list_scope.


(** C7.  When a category of the loaded checklist has no [items] key,
    the review raises the [KeyError] of that lookup before the tracker
    is started, a check is run or the callback is called, so the state
    is the one it began in; and the [review_code] tool answers with the
    error payload that carries the text and the type name of that
    exception, and stores nothing. *)
Theorem missing_items_aborts E technology checklist categories :
  load_checklist E technology = Ok checklist ->
  Checklist.categories checklist = Some categories ->
  Exists (fun category => Category.items category = None) categories ->
  (forall cb t_start t_end w,
      review_code E technology cb t_start t_end w
      = (Raise (KeyError "items"), w))
  /\ (forall path detected t_start t_end active_reviews,
         root_exists (project E) = true ->
         technology <> "" ->
         Main.review_code E path (Some technology) detected
                          t_start t_end active_reviews
         = (Main.Failed "'items'" "KeyError", active_reviews)).
Proof.
  intros Hload Hcats Hmiss.
  assert (Hrun : forall cb t_start t_end w,
             review_code E technology cb t_start t_end w
             = (Raise (KeyError "items"), w)).
  { intros cb t_start t_end w. unfold review_code, bind, lift.
    rewrite Hload, Hcats. cbn [getitem].
    now rewrite (count_checks_missing categories 0 Hmiss). }
  split; [exact Hrun|].
  intros path detected t_start t_end active_reviews Hroot Hne.
  unfold Main.review_code, Main.try_review.
  destruct technology as [|c rest]; [congruence|].
  unfold new. rewrite Hroot, Hrun. reflexivity.
Qed.

End EngineClaims.

(** ** Counting: the progress invariant through a review *)

Section Counting.
Context `{Runtime}.
Import ValidationResult ChecklistEngine.
Local Open Scope list_scope.

Lemma Advance_refl w : Advance 0 w w.
Proof.
  split; [reflexivity|]. split; [lia|].
  exists []. split; [now rewrite app_nil_r | constructor].
Qed.

Lemma Advance_trans n m w w1 w2 :
  0 <= n -> 0 <= m ->
  Advance n w w1 -> Advance m w1 w2 -> Advance (n + m) w w2.
Proof.
  intros Hn Hm (Ht1 & Hd1 & new1 & Hu1 & Hs1) (Ht2 & Hd2 & new2 & Hu2 & Hs2).
  split; [congruence|]. split; [lia|].
  exists (new1 ++ new2). split; [now rewrite Hu2, Hu1, app_assoc|].
  apply Forall_app. split.
  - eapply Forall_impl; [|exact Hs1].
    intros p (Hp1 & Hp2 & Hp3). repeat split; try assumption; lia.
  - eapply Forall_impl; [|exact Hs2].
    intros p (Hp1 & Hp2 & Hp3). repeat split; try assumption; lia.
Qed.

Lemma record_failures_cons check_id category_name r results self :
  record_failures check_id category_name (r :: results) self
  = record_failures check_id category_name results
      (if negb (passed r)
       then ProgressTracker.record_fail
              (failure_info check_id category_name r) self
       else self).
Proof. reflexivity. Qed.

Lemma record_failures_counts check_id category_name results self :
  ProgressTracker.total_checks
    (record_failures check_id category_name results self)
  = ProgressTracker.total_checks self
  /\ done (record_failures check_id category_name results self)
     = done self + Z.of_nat (List.length (failing results)).
Proof.
  revert self. induction results as [|r results IH]; intros self.
  - cbn. split; lia.
  - rewrite record_failures_cons. unfold failing. cbn [filter].
    fold (failing results).
    destruct (negb (passed r)).
    + destruct (IH (ProgressTracker.record_fail
                      (failure_info check_id category_name r) self))
        as [-> ->].
      cbn [List.length]. unfold done. cbn. split; lia.
    + apply IH.
Qed.

Lemma some_failing results :
  forallb passed results = false -> (1 <= List.length (failing results))%nat.
Proof.
  induction results as [|r results IH]; [discriminate|].
  unfold failing. cbn [forallb filter].
  destruct (passed r); cbn [negb andb List.length]; [exact IH | lia].
Qed.

(** A check with at most one failing result moves the count by one. *)
Lemma after_check_counts check_id description category_name results self :
  (List.length (failing results) <= 1)%nat ->
  ProgressTracker.total_checks
    (after_check check_id description category_name results self)
  = ProgressTracker.total_checks self
  /\ done (after_check check_id description category_name results self)
     = done self + 1.
Proof.
  intros Hone. unfold after_check.
  destruct (forallb passed results) eqn:Hall.
  - unfold done. cbn. split; lia.
  - apply some_failing in Hall.
    destruct (record_failures_counts check_id category_name results
                (ProgressTracker.update_check check_id description self))
      as [-> ->].
    unfold done. cbn. split; lia.
Qed.

Lemma review_check_advance E technology cb category_name check w w' :
  single_failure E technology check ->
  review_check E technology cb category_name check w = (Ok tt, w') ->
  Advance 1 w w'.
Proof.
  intros Hone Hrun.
  apply review_check_ok in Hrun as (i & d & results & _ & _ & Hexec & ->).
  destruct (after_check_counts i d category_name results
              (progress_tracker w) (Hone results Hexec)) as [Ht Hd].
  cbn [progress_tracker progress_updates].
  split; [exact Ht|]. split; [exact Hd|].
  eexists. split; [reflexivity|].
  unfold snapshots. destruct cb; [|constructor].
  repeat constructor; cbn [ProgressTracker.get_progress fst
    ProgressTracker.total ProgressTracker.completed
    ProgressTracker.p_passed ProgressTracker.p_failed
    ProgressTracker.p_skipped];
    try exact Ht; fold (done (after_check i d category_name results
                                (progress_tracker w)));
    unfold done in *; cbn; lia.
Qed.

Lemma review_loop_advance E technology cb categories w w' :
  Forall (single_failure E technology) (checks_of categories) ->
  for_each (review_category E technology cb) categories w = (Ok tt, w') ->
  Advance (Z.of_nat (List.length (checks_of categories))) w w'.
Proof.
  intros Hone Hrun. revert Hone.
  refine (review_loop_rule E technology cb
            (fun checks w w' =>
               Forall (single_failure E technology) checks ->
               Advance (Z.of_nat (List.length checks)) w w')
            _ _ categories w w' Hrun).
  - intros w0 _. apply Advance_refl.
  - intros category_name check checks w0 w1 w2 Hcheck IH Hall.
    inversion Hall as [|? ? Hc Hcs]; subst.
    replace (Z.of_nat (List.length (check :: checks)))
      with (1 + Z.of_nat (List.length checks)) by (cbn [List.length]; lia).
    apply Advance_trans with w1; try lia; [|now apply IH].
    eapply review_check_advance; eauto.
Qed.

End Counting.

(** ** The check the tracker points at *)

Section CurrentCheck.
Context `{Runtime}.
Import ValidationResult ChecklistEngine.
Local Open Scope list_scope.

Lemma record_failures_current check_id category_name results self :
  ProgressTracker.current_check
    (record_failures check_id category_name results self)
  = ProgressTracker.current_check self.
Proof.
  revert self. induction results as [|r results IH]; intros self;
    [reflexivity|].
  rewrite record_failures_cons, IH. now destruct (negb (passed r)).
Qed.

Lemma after_check_current check_id description category_name results self :
  ProgressTracker.current_check
    (after_check check_id description category_name results self)
  = Some {| ProgressTracker.cc_id := check_id;
            ProgressTracker.cc_description := description |}.
Proof.
  unfold after_check. destruct (forallb passed results); [reflexivity|].
  now rewrite record_failures_current.
Qed.

Lemma review_loop_current E technology cb categories w w' :
  for_each (review_category E technology cb) categories w = (Ok tt, w') ->
  Forall wf_check (checks_of categories)
  /\ ProgressTracker.current_check (progress_tracker w')
     = last_check (checks_of categories)
                  (ProgressTracker.current_check (progress_tracker w)).
Proof.
  intros Hrun.
  refine (review_loop_rule E technology cb
            (fun checks w w' =>
               Forall wf_check checks
               /\ ProgressTracker.current_check (progress_tracker w')
                  = last_check checks
                      (ProgressTracker.current_check (progress_tracker w)))
            _ _ categories w w' Hrun).
  - intros w0. split; [constructor | reflexivity].
  - intros category_name check checks w0 w1 w2 Hcheck [Hwf IH].
    apply review_check_ok in Hcheck
      as (i & d & results & Hid & Hd & _ & ->).
    split; [constructor; [exists i, d; auto | exact Hwf]|].
    rewrite IH. cbn [progress_tracker last_check fold_left].
    rewrite after_check_current. unfold current_of. now rewrite Hid, Hd.
Qed.

End CurrentCheck.

(** ** Claims about the progress model *)

Section ProgressClaims.
Context `{Runtime}.
Import ValidationResult ChecklistEngine ProgressTracker.
Local Open Scope list_scope.

(** X26.  Whatever calls a tracker has received, its
    snapshot has completed = passed + failed + skipped.  After
    [start(total)] the snapshot reports that total and as many
    completed as outcomes were recorded since, so it stays within the
    total as long as no more than that many are recorded.  And when
    [review_code] runs a checklist of N checks, each of which gets at
    most one failing result from its validator, the summary reports
    total = completed = N and every snapshot handed to the callback
    reports total = N and completed between 0 and N. *)
Theorem completed_counts :
  (forall calls self,
      completed (fst (get_progress (run calls self)))
      = p_passed (fst (get_progress (run calls self)))
        + p_failed (fst (get_progress (run calls self)))
        + p_skipped (fst (get_progress (run calls self))))
  /\ (forall n now calls self,
         forallb no_start calls = true ->
         total (fst (get_progress (run calls (start n now self)))) = n
         /\ completed (fst (get_progress (run calls (start n now self))))
            = Z.of_nat (List.length (filter is_record calls)))
  /\ (forall E technology cb t_start t_end w s w' checklist categories,
         load_checklist E technology = Ok checklist ->
         Checklist.categories checklist = Some categories ->
         Forall (single_failure E technology) (checks_of categories) ->
         review_code E technology cb t_start t_end w = (Ok s, w') ->
         total (progress s)
         = Z.of_nat (List.length (checks_of categories))
         /\ completed (progress s)
            = Z.of_nat (List.length (checks_of categories))
         /\ exists new,
             progress_updates w' = progress_updates w ++ new
             /\ Forall (within
                          (Z.of_nat (List.length (checks_of categories)))
                          0
                          (Z.of_nat (List.length (checks_of categories))))
                       new).
Proof.
  split; [reflexivity|]. split.
  - intros n now calls self Hns.
    destruct (done_run calls (start n now self) Hns) as [Hd Ht].
    cbn [get_progress fst total completed]. split; [exact Ht|].
    fold (done (run calls (start n now self))). rewrite Hd. reflexivity.
  - intros E technology cb t_start t_end w s w' checklist categories
           Hload Hcats Hone Hrun.
    apply review_code_ok in Hrun
      as (checklist' & categories' & wl & Hload' & Hcats' & Hloop & -> & ->).
    assert (categories' = categories) by congruence. subst categories'.
    apply (review_loop_advance E technology cb categories _ wl Hone)
      in Hloop as (Ht & Hd & new & Hu & Hs).
    cbn [progress_tracker progress_updates] in Ht, Hd, Hu, Hs.
    change (done (start _ t_start (progress_tracker w))) with 0 in Hd, Hs.
    cbn [start total_checks] in Ht, Hs.
    cbn [get_summary get_progress fst progress total completed].
    split; [exact Ht|]. split.
    + change (passed (complete t_end (progress_tracker wl))
              + failed (complete t_end (progress_tracker wl))
              + skipped (complete t_end (progress_tracker wl)))
        with (done (progress_tracker wl)).
      rewrite Hd. lia.
    + exists new. split; [exact Hu | exact Hs].
Qed.

(** C8 fails on the code: [start] sets the total, zeroes the counters,
    empties the failure list and stamps the start time, but the end time
    and the current check of a completed review stay, so the summary
    taken right after reports [completed], with a duration that runs
    from the new start to the old end. *)
Theorem start_after_complete n now t_end self :
  total_checks (start n now (complete t_end self)) = n
  /\ passed (start n now (complete t_end self)) = 0
  /\ failed (start n now (complete t_end self)) = 0
  /\ skipped (start n now (complete t_end self)) = 0
  /\ failures (start n now (complete t_end self)) = []
  /\ start_time (start n now (complete t_end self)) = Some now
  /\ end_time (start n now (complete t_end self)) = Some t_end
  /\ current_check (start n now (complete t_end self)) = current_check self
  /\ status (fst (get_summary (start n now (complete t_end self))))
     = "completed"
  /\ duration_seconds (fst (get_summary (start n now (complete t_end self))))
     = Some (total_seconds (t_end - now)).
Proof. repeat split. Qed.

(** C9.  [get_progress] leaves the tracker as it found it, and a
    second call right after the first returns the same snapshot. *)
Theorem get_progress_pure_read self :
  snd (get_progress self) = self
  /\ fst (get_progress (snd (get_progress self))) = fst (get_progress self)
  /\ snd (get_progress (snd (get_progress self))) = self.
Proof. repeat split. Qed.

(** C10.  Neither [start] nor [complete] touches [current_check].  So
    the summary of a review that ran at least one check names the last
    check run, with [in_progress] false; and when the tracker of that
    review is started again, its snapshot still names that check, until
    [update_check] puts another in its place. *)
Theorem current_check_outlives_review :
  (forall n now self, current_check (start n now self) = current_check self)
  /\ (forall now self, current_check (complete now self) = current_check self)
  /\ (forall E technology cb t_start t_end w s w' checklist categories
             earlier check,
         load_checklist E technology = Ok checklist ->
         Checklist.categories checklist = Some categories ->
         checks_of categories = earlier ++ [check] ->
         review_code E technology cb t_start t_end w = (Ok s, w') ->
         exists i d,
           Check.id check = Some i
           /\ Check.description check = Some d
           /\ p_current_check (progress s)
              = Some {| cc_id := i; cc_description := d |}
           /\ p_in_progress (progress s) = false
           /\ (forall n now,
                  p_current_check
                    (fst (get_progress (start n now (progress_tracker w'))))
                  = Some {| cc_id := i; cc_description := d |})
           /\ (forall n now i' d',
                  p_current_check
                    (fst (get_progress
                            (update_check i' d'
                               (start n now (progress_tracker w')))))
                  = Some {| cc_id := i'; cc_description := d' |})).
Proof.
  split; [reflexivity|]. split; [reflexivity|].
  intros E technology cb t_start t_end w s w' checklist categories
         earlier check Hload Hcats Hlast Hrun.
  apply review_code_ok in Hrun
    as (checklist' & categories' & wl & Hload' & Hcats' & Hloop & -> & ->).
  assert (categories' = categories) by congruence. subst categories'.
  apply review_loop_current in Hloop as [Hwf Hcur].
  rewrite Hlast in Hwf, Hcur.
  apply Forall_app in Hwf as [_ Hwf].
  inversion Hwf as [|? ? (i & d & Hid & Hd) _]; subst.
  unfold last_check in Hcur. rewrite fold_left_app in Hcur.
  cbn [fold_left] in Hcur. unfold current_of in Hcur.
  rewrite Hid, Hd in Hcur.
  exists i, d. split; [exact Hid|]. split; [exact Hd|].
  cbn [get_summary get_progress fst progress p_current_check p_in_progress
       progress_tracker complete start update_check current_check
       in_progress].
  repeat split; intros; exact Hcur.
Qed.

End ProgressClaims.

(** ** Further properties of the progress model *)

Section TrackerExtras.
Context `{Runtime}.
Import ProgressTracker.
Local Open Scope list_scope.

Lemma run_snoc calls c self :
  run (calls ++ [c]) self = apply_call (run calls self) c.
Proof. unfold run. now rewrite fold_left_app. Qed.

(** X1.  Whatever calls a tracker has received since it was created,
    its [failed] counter is the length of its failure list. *)
Theorem failed_counts_failures calls :
  failed (run calls init) = Z.of_nat (List.length (failures (run calls init))).
Proof.
  induction calls as [|c calls IH] using rev_ind; [reflexivity|].
  rewrite run_snoc. destruct c; cbn; try exact IH; try reflexivity.
  rewrite IH, length_app. cbn [List.length]. lia.
Qed.

(** X2.  Every call sets the in-progress flag: the snapshot taken after
    a call says [in_progress] exactly when that call was [update_check],
    whatever the tracker held before. *)
Theorem in_progress_after_call calls c self :
  p_in_progress (fst (get_progress (run (calls ++ [c]) self)))
  = match c with
    | UpdateCheck _ _ => true
    | _ => false
    end.
Proof. rewrite run_snoc. destruct c; reflexivity. Qed.

End TrackerExtras.

(** ** Further properties of the runner *)

Section ReviewFacts.
Context `{Runtime}.
Import ValidationResult ChecklistEngine.
Local Open Scope list_scope.

(** The two loops visit the checks of [tagged_checks] one by one, each
    under the name of its category. *)
Lemma review_loop_tagged E technology cb
  (R : list (string * Check.t) -> World -> World -> Prop) :
  (forall w, R [] w w) ->
  (forall category_name check rest w w1 w2,
      review_check E technology cb category_name check w = (Ok tt, w1) ->
      R rest w1 w2 -> R ((category_name, check) :: rest) w w2) ->
  forall categories w w',
    for_each (review_category E technology cb) categories w = (Ok tt, w') ->
    R (tagged_checks categories) w w'.
Proof.
  intros Hnil Hcons categories.
  apply (for_each_rule (review_category E technology cb)
           (fun categories w w' => R (tagged_checks categories) w w')).
  - exact Hnil.
  - intros category rest w w1 w2 Hcat Hrest.
    apply review_category_ok in Hcat
      as (category_name & items & Hname & Hitems & Hloop).
    cbn [tagged_checks flat_map]. rewrite Hname, Hitems. cbn [get].
    clear Hname Hitems.
    revert w2 Hrest. fold (tagged_checks rest).
    generalize (tagged_checks rest).
    revert items w w1 Hloop.
    apply (for_each_rule (review_check E technology cb category_name)
             (fun items w w1 =>
                forall later w2,
                  R later w1 w2 ->
                  R (map (pair category_name) items ++ later) w w2)).
    + intros w later w2 Hlater. exact Hlater.
    + intros check items w wa wb Hcheck Hitems later w2 Hlater.
      cbn [map app]. eapply Hcons; eauto.
Qed.

Lemma tagged_checks_snd categories :
  map snd (tagged_checks categories) = checks_of categories.
Proof.
  induction categories as [|category rest IH]; [reflexivity|].
  cbn [tagged_checks checks_of flat_map]. rewrite map_app.
  fold (tagged_checks rest). fold (checks_of rest). rewrite IH. f_equal.
  rewrite map_map. cbn [snd]. apply map_id.
Qed.

Lemma failing_nil results :
  forallb passed results = true -> failing results = [].
Proof.
  induction results as [|r results IH]; [reflexivity|].
  unfold failing. cbn [forallb filter].
  destruct (passed r); cbn [andb negb]; [exact IH | discriminate].
Qed.

Lemma record_failures_fields check_id category_name results self :
  ProgressTracker.failures
    (record_failures check_id category_name results self)
  = ProgressTracker.failures self
    ++ map (failure_info check_id category_name) (failing results)
  /\ ProgressTracker.passed
       (record_failures check_id category_name results self)
     = ProgressTracker.passed self
  /\ ProgressTracker.failed
       (record_failures check_id category_name results self)
     = ProgressTracker.failed self + Z.of_nat (List.length (failing results))
  /\ ProgressTracker.skipped
       (record_failures check_id category_name results self)
     = ProgressTracker.skipped self
  /\ ProgressTracker.start_time
       (record_failures check_id category_name results self)
     = ProgressTracker.start_time self
  /\ ProgressTracker.end_time
       (record_failures check_id category_name results self)
     = ProgressTracker.end_time self.
Proof.
  revert self. induction results as [|r results IH]; intros self.
  - cbn. rewrite app_nil_r. repeat split; lia.
  - rewrite record_failures_cons. unfold failing. cbn [filter].
    fold (failing results). destruct (negb (passed r)); [|apply IH].
    destruct (IH (ProgressTracker.record_fail
                    (failure_info check_id category_name r) self))
      as (-> & -> & -> & -> & -> & ->).
    cbn [ProgressTracker.record_fail ProgressTracker.failures
         ProgressTracker.passed ProgressTracker.failed
         ProgressTracker.skipped ProgressTracker.start_time
         ProgressTracker.end_time map List.length].
    rewrite <- app_assoc. repeat split; try reflexivity. lia.
Qed.

(** The flag is down after the loop that records failures, if it
    recorded any. *)
Lemma record_failures_flag check_id category_name results self :
  forallb passed results = false ->
  ProgressTracker.in_progress
    (record_failures check_id category_name results self) = 0.
Proof.
  revert self. induction results as [|r results IH]; intros self;
    [discriminate|].
  rewrite record_failures_cons. cbn [forallb].
  destruct (passed r) eqn:Hr; cbn [andb negb]; [apply IH|].
  intros _. clear IH.
  generalize (ProgressTracker.record_fail
                (failure_info check_id category_name r) self)
             (eq_refl : ProgressTracker.in_progress
                          (ProgressTracker.record_fail
                             (failure_info check_id category_name r) self)
                        = 0).
  induction results as [|r' results IH]; intros self' Hflag; [exact Hflag|].
  rewrite record_failures_cons. destruct (negb (passed r')); apply IH;
    [reflexivity | exact Hflag].
Qed.

(** What one reviewed check does to the tracker. *)
Lemma after_check_fields i d category_name results self :
  ProgressTracker.failures (after_check i d category_name results self)
  = ProgressTracker.failures self
    ++ map (failure_info i category_name) (failing results)
  /\ ProgressTracker.passed (after_check i d category_name results self)
     = ProgressTracker.passed self
       + (if forallb passed results then 1 else 0)
  /\ ProgressTracker.failed (after_check i d category_name results self)
     = ProgressTracker.failed self + Z.of_nat (List.length (failing results))
  /\ ProgressTracker.skipped (after_check i d category_name results self)
     = ProgressTracker.skipped self
  /\ ProgressTracker.start_time (after_check i d category_name results self)
     = ProgressTracker.start_time self
  /\ ProgressTracker.end_time (after_check i d category_name results self)
     = ProgressTracker.end_time self
  /\ ProgressTracker.in_progress (after_check i d category_name results self)
     = 0.
Proof.
  unfold after_check. destruct (forallb passed results) eqn:Hall.
  - rewrite (failing_nil results Hall). cbn. rewrite app_nil_r.
    repeat split; lia.
  - destruct (record_failures_fields i category_name results
                (ProgressTracker.update_check i d self))
      as (-> & -> & -> & -> & -> & ->).
    rewrite (record_failures_flag i category_name results _ Hall).
    cbn. repeat split; lia.
Qed.

End ReviewFacts.

Section ReviewTally.
Context `{Runtime}.
Import ValidationResult ChecklistEngine.
Local Open Scope list_scope.

Lemma Tally_nil E technology cb w : Tally E technology cb [] w w.
Proof.
  unfold Tally. cbn [flat_map filter List.length Z.of_nat].
  rewrite app_nil_r, !Z.add_0_r. repeat split; try constructor.
  exists []. rewrite app_nil_r. split; [reflexivity|]. now destruct cb.
Qed.

Lemma Tally_check E technology cb category_name check w w1 :
  review_check E technology cb category_name check w = (Ok tt, w1) ->
  Tally E technology cb [(category_name, check)] w w1.
Proof.
  intros Hrun.
  apply review_check_ok in Hrun as (i & d & results & Hid & Hd & Hexec & ->).
  destruct (after_check_fields i d category_name results (progress_tracker w))
    as (Hf & Hp & Hfd & Hs & Hst & Het & Hflag).
  destruct (record_failures_counts i category_name results
              (ProgressTracker.update_check i d (progress_tracker w)))
    as [Htot _].
  assert (Htotal : ProgressTracker.total_checks
                     (after_check i d category_name results
                        (progress_tracker w))
                   = ProgressTracker.total_checks (progress_tracker w)).
  { unfold after_check. destruct (forallb passed results);
      [reflexivity | exact Htot]. }
  unfold Tally, check_failures, check_passes, results_of.
  cbn [progress_tracker progress_updates flat_map filter fst snd].
  rewrite Hexec, Hid, app_nil_r. cbn [get].
  rewrite Hf, Hp, Hfd, Hs, Hst, Het, Htotal, length_map.
  repeat split.
  - destruct (forallb passed results); reflexivity.
  - constructor; [exists i, d; auto | constructor].
  - eexists. split; [reflexivity|].
    unfold snapshots, marks, mark, current_of.
    destruct cb; [|reflexivity].
    cbn [map ProgressTracker.get_progress fst
         ProgressTracker.p_current_check ProgressTracker.p_in_progress].
    rewrite after_check_current, Hflag, Hid, Hd. reflexivity.
Qed.

Lemma Tally_app E technology cb xs ys w w1 w2 :
  Tally E technology cb xs w w1 ->
  Tally E technology cb ys w1 w2 ->
  Tally E technology cb (xs ++ ys) w w2.
Proof.
  intros (Hf1 & Hp1 & Hd1 & Hs1 & Ht1 & Hst1 & Het1 & Hwf1 & new1 & Hu1 & Hm1)
         (Hf2 & Hp2 & Hd2 & Hs2 & Ht2 & Hst2 & Het2 & Hwf2 & new2 & Hu2 & Hm2).
  unfold Tally.
  rewrite Hf2, Hf1, Hp2, Hp1, Hd2, Hd1, Hs2, Hs1, Ht2, Ht1, Hst2, Hst1,
          Het2, Het1.
  rewrite flat_map_app, filter_app, !length_app, <- app_assoc.
  repeat split; try lia.
  - apply Forall_app. now split.
  - exists (new1 ++ new2). rewrite Hu2, Hu1, <- app_assoc.
    split; [reflexivity|].
    rewrite map_app, Hm1, Hm2. destruct cb; [|reflexivity].
    now rewrite flat_map_app.
Qed.

(** What the two loops do to the tracker and to the callback log. *)
Lemma review_loop_tally E technology cb categories w w' :
  for_each (review_category E technology cb) categories w = (Ok tt, w') ->
  Tally E technology cb (tagged_checks categories) w w'.
Proof.
  apply (review_loop_tagged E technology cb (Tally E technology cb)).
  - apply Tally_nil.
  - intros category_name check rest w0 w1 w2 Hcheck Hrest.
    change ((category_name, check) :: rest)
      with ([(category_name, check)] ++ rest).
    eapply Tally_app; [|exact Hrest]. now apply Tally_check.
Qed.

End ReviewTally.

Section ReviewExtras.
Context `{Runtime}.
Import ValidationResult ChecklistEngine ProgressTracker.
Local Open Scope list_scope.

(** A review that returns has come through [review_loop_tally] from the
    started tracker. *)
Lemma review_code_tally E technology cb t_start t_end w s w'
  checklist categories :
  load_checklist E technology = Ok checklist ->
  Checklist.categories checklist = Some categories ->
  review_code E technology cb t_start t_end w = (Ok s, w') ->
  exists wl,
    Tally E technology cb (tagged_checks categories)
      {| progress_tracker :=
           start (Z.of_nat (List.length (checks_of categories))) t_start
                 (progress_tracker w);
         progress_updates := progress_updates w |} wl
    /\ s = fst (get_summary (complete t_end (progress_tracker wl)))
    /\ w' = {| progress_tracker := complete t_end (progress_tracker wl);
               progress_updates := progress_updates wl |}.
Proof.
  intros Hload Hcats Hrun.
  apply review_code_ok in Hrun
    as (checklist' & categories' & wl & Hload' & Hcats' & Hloop & Hs & Hw).
  assert (categories' = categories) by congruence. subst categories'.
  exists wl. split; [now apply review_loop_tally | now split].
Qed.

(** X3.  The summary of a review counts as passed the checks all of
    whose results passed and as failed the failing results, one by one;
    its failure list holds exactly the failing results of the checks, in
    the order the checks were run, each under the id of its check and the
    name of its category; nothing is counted as skipped, and nothing is
    left of what the tracker held before. *)
Theorem review_summary_tally E technology cb t_start t_end w s w'
  checklist categories :
  load_checklist E technology = Ok checklist ->
  Checklist.categories checklist = Some categories ->
  review_code E technology cb t_start t_end w = (Ok s, w') ->
  s_failures s
  = flat_map (check_failures E technology) (tagged_checks categories)
  /\ p_passed (progress s)
     = Z.of_nat (List.length (filter (check_passes E technology)
                                     (tagged_checks categories)))
  /\ p_failed (progress s) = Z.of_nat (List.length (s_failures s))
  /\ p_skipped (progress s) = 0.
Proof.
  intros Hload Hcats Hrun.
  destruct (review_code_tally E technology cb t_start t_end w s w'
              checklist categories Hload Hcats Hrun)
    as (wl & (Hf & Hp & Hd & Hs & _) & -> & _).
  cbn [progress_tracker start failures passed failed skipped app Z.add]
    in Hf, Hp, Hd, Hs.
  cbn [get_summary get_progress fst progress s_failures p_passed p_failed
       p_skipped complete failures passed failed skipped].
  rewrite Hf, Hp, Hd, Hs. repeat split.
Qed.

(** X4.  Every failure a review reports belongs to a check of the
    checklist: it carries the id of a check that is there, the name of
    the category that check is listed under, and the message, path, line
    and severity of a failing result the validator returned for it. *)
Theorem failures_come_from_checklist E technology cb t_start t_end w s w'
  checklist categories f :
  load_checklist E technology = Ok checklist ->
  Checklist.categories checklist = Some categories ->
  review_code E technology cb t_start t_end w = (Ok s, w') ->
  In f (s_failures s) ->
  exists category_name check results r,
    In (category_name, check) (tagged_checks categories)
    /\ Check.id check = Some (f_check_id f)
    /\ f_category f = category_name
    /\ _execute_check E check technology = Ok results
    /\ In r results
    /\ ValidationResult.passed r = false
    /\ f = failure_info (f_check_id f) category_name r.
Proof.
  intros Hload Hcats Hrun Hin.
  destruct (review_code_tally E technology cb t_start t_end w s w'
              checklist categories Hload Hcats Hrun)
    as (wl & (Hf & _ & _ & _ & _ & _ & _ & Hwf & _) & -> & _).
  cbn [progress_tracker start failures app] in Hf.
  cbn [get_summary get_progress fst s_failures complete failures] in Hin.
  rewrite Hf in Hin. apply in_flat_map in Hin as ([cn check] & Htc & Hin).
  unfold check_failures in Hin. cbn [fst snd] in Hin.
  apply in_map_iff in Hin as (r & <- & Hr).
  unfold failing in Hr. apply filter_In in Hr as [Hr Hfail].
  rewrite Forall_forall in Hwf.
  destruct (Hwf _ Htc) as (i & d & Hid & _). cbn [snd] in Hid.
  unfold results_of in Hr.
  destruct (_execute_check E check technology) as [results|] eqn:Hexec;
    [|contradiction].
  exists cn, check, results, r. rewrite Hid. cbn [get failure_info f_check_id
    f_category].
  repeat split; try assumption.
  now apply negb_true_iff in Hfail.
Qed.

End ReviewExtras.

Section ReviewGuarantees.
Context `{Runtime}.
Import ValidationResult ChecklistEngine ProgressTracker.
Local Open Scope list_scope.

Lemma flat_map_snd {A B C} (g : B -> list C) (xs : list (A * B)) :
  flat_map (fun x => g (snd x)) xs = flat_map g (map snd xs).
Proof.
  induction xs as [|x xs IH]; [reflexivity|]. cbn. now rewrite IH.
Qed.

(** X5.  A review calls the progress callback exactly twice per check,
    in the order of the checklist: before the check with that check as
    the current one and [in_progress] true, and after it with the same
    current check and [in_progress] false.  Without a callback nothing is
    handed out. *)
Theorem callback_twice_per_check E technology cb t_start t_end w s w'
  checklist categories :
  load_checklist E technology = Ok checklist ->
  Checklist.categories checklist = Some categories ->
  review_code E technology cb t_start t_end w = (Ok s, w') ->
  exists new,
    progress_updates w' = progress_updates w ++ new
    /\ map mark new
       = (if cb then flat_map marks (checks_of categories) else [])
    /\ List.length new
       = (if cb then 2 * List.length (checks_of categories) else 0)%nat.
Proof.
  intros Hload Hcats Hrun.
  destruct (review_code_tally E technology cb t_start t_end w s w'
              checklist categories Hload Hcats Hrun)
    as (wl & (_ & _ & _ & _ & _ & _ & _ & _ & new & Hu & Hm) & _ & ->).
  cbn [progress_updates] in Hu |- *.
  exists new. split; [exact Hu|].
  rewrite flat_map_snd, tagged_checks_snd in Hm. split; [exact Hm|].
  rewrite <- (length_map mark), Hm. destruct cb; [|reflexivity].
  generalize (checks_of categories). intros checks.
  induction checks as [|c checks IH]; [reflexivity|].
  cbn [flat_map marks app List.length]. rewrite IH. lia.
Qed.

(** X6.  Whatever the tracker held before, the summary a review returns
    has status [completed], the number of checks of the checklist as its
    total, and the time between the two clock readings as its duration;
    and its snapshot is not in progress. *)
Theorem review_summary_stamps E technology cb t_start t_end w s w'
  checklist categories :
  load_checklist E technology = Ok checklist ->
  Checklist.categories checklist = Some categories ->
  review_code E technology cb t_start t_end w = (Ok s, w') ->
  status s = "completed"%string
  /\ total (progress s) = Z.of_nat (List.length (checks_of categories))
  /\ duration_seconds s = Some (total_seconds (t_end - t_start))
  /\ p_in_progress (progress s) = false.
Proof.
  intros Hload Hcats Hrun.
  destruct (review_code_tally E technology cb t_start t_end w s w'
              checklist categories Hload Hcats Hrun)
    as (wl & (_ & _ & _ & _ & Ht & Hst & _) & -> & _).
  cbn [progress_tracker start total_checks start_time] in Ht, Hst.
  cbn [get_summary get_progress fst progress status total duration_seconds
       p_in_progress complete total_checks start_time end_time in_progress].
  rewrite Ht, Hst. repeat split.
Qed.

Lemma tally_covers E technology (tagged : list (string * Check.t)) :
  (List.length tagged
   <= List.length (filter (check_passes E technology) tagged)
      + List.length (flat_map (check_failures E technology) tagged))%nat.
Proof.
  induction tagged as [|tc tagged IH]; [cbn; lia|].
  cbn [filter flat_map List.length]. rewrite length_app.
  destruct (check_passes E technology tc) eqn:Hp; cbn [List.length]; [lia|].
  unfold check_passes in Hp. apply some_failing in Hp.
  unfold check_failures at 1. rewrite length_map. lia.
Qed.

(** X7.  The summary of a review never reports fewer completed than
    total: every check adds at least one to passed or to failed. *)
Theorem completed_at_least_total E technology cb t_start t_end w s w'
  checklist categories :
  load_checklist E technology = Ok checklist ->
  Checklist.categories checklist = Some categories ->
  review_code E technology cb t_start t_end w = (Ok s, w') ->
  total (progress s) <= completed (progress s).
Proof.
  intros Hload Hcats Hrun.
  destruct (review_code_tally E technology cb t_start t_end w s w'
              checklist categories Hload Hcats Hrun)
    as (wl & (_ & Hp & Hd & Hs & Ht & _) & -> & _).
  cbn [progress_tracker start passed failed skipped total_checks Z.add]
    in Hp, Hd, Hs, Ht.
  cbn [get_summary get_progress fst progress total completed complete
       passed failed skipped total_checks].
  pose proof (tally_covers E technology (tagged_checks categories)) as Hc.
  rewrite <- (length_map snd), tagged_checks_snd in Hc at 1.
  rewrite Hp, Hd, Hs, Ht. lia.
Qed.

End ReviewGuarantees.

(** ** Further properties of the validators *)

Section ValidatorShapes.
Context `{Runtime}.
Import ValidationResult.
Local Open Scope list_scope.

Lemma search_lines_failing check f p lines :
  Forall (fun r => passed r = false)
         (fst (PatternValidator.search_lines check f p lines [])).
Proof.
  induction lines as [|[n line] lines IH]; [constructor|].
  cbn [PatternValidator.search_lines].
  destruct (re_search p line); [|exact IH].
  unfold PatternValidator.match_result.
  destruct (Check.id check) as [i|]; [|constructor].
  destruct (Check.description check) as [d|]; [|constructor].
  cbn [getitem rbind]. rewrite search_lines_acc.
  cbn [fst]. apply Forall_app. split; [|exact IH].
  repeat constructor.
Qed.

Lemma search_patterns_failing check f lines patterns :
  Forall (fun r => passed r = false)
         (fst (PatternValidator.search_patterns check f lines patterns [])).
Proof.
  induction patterns as [|ps patterns IH]; [constructor|].
  cbn [PatternValidator.search_patterns].
  destruct (re_compile ps) as [p|e]; [|constructor].
  pose proof (search_lines_failing check f p (enumerate lines 1)) as Hl.
  destruct (PatternValidator.search_lines check f p (enumerate lines 1) [])
    as [new [e|]]; cbn [fst] in Hl |- *; [exact Hl|].
  rewrite search_patterns_acc. cbn [fst]. apply Forall_app. now split.
Qed.

Lemma try_file_failing check f patterns :
  Forall (fun r => passed r = false)
         (fst (PatternValidator.try_file check f patterns [])).
Proof.
  unfold PatternValidator.try_file.
  destruct (read_text f); [apply search_patterns_failing | constructor].
Qed.

(** The file loop returns failing results only. *)
Lemma check_files_failing check patterns files results :
  PatternValidator.check_files check patterns files [] = Ok results ->
  Forall (fun r => passed r = false) results.
Proof.
  revert results. induction files as [|f files IH]; intros results.
  - cbn. intros [= <-]. constructor.
  - cbn [PatternValidator.check_files].
    pose proof (try_file_failing check f patterns) as Hf.
    destruct (PatternValidator.try_file check f patterns []) as [new [e|]];
      cbn [fst] in Hf.
    + unfold PatternValidator.error_result.
      destruct (Check.id check) as [i|]; [|discriminate].
      cbn [getitem rbind]. rewrite check_files_acc.
      destruct (PatternValidator.check_files check patterns files [])
        as [more|]; [|discriminate].
      cbn [rbind]. intros [= <-].
      rewrite !Forall_app. repeat split; auto.
    + rewrite check_files_acc.
      destruct (PatternValidator.check_files check patterns files [])
        as [more|]; [|discriminate].
      cbn [rbind]. intros [= <-]. apply Forall_app. split; auto.
Qed.

(** X8.  The pattern validator never returns an empty list nor a mix:
    what it returns is either one passing result or one or more results
    that all fail. *)
Theorem pattern_results_shape P check results :
  PatternValidator.validate P check = Ok results ->
  (exists r, results = [r] /\ passed r = true)
  \/ (results <> [] /\ Forall (fun r => passed r = false) results).
Proof.
  unfold PatternValidator.validate.
  destruct (get (Check.patterns check) []) as [|pat pats].
  { destruct (Check.id check); cbn [getitem rbind]; [|discriminate].
    intros [= <-]. left. eauto. }
  destruct (BaseValidator.get_files_to_check P _) as [|f files].
  { destruct (Check.id check); cbn [getitem rbind]; [|discriminate].
    intros [= <-]. left. eauto. }
  destruct (PatternValidator.check_files check (pat :: pats) (f :: files) [])
    as [rs|] eqn:Hscan; cbn [rbind]; [|discriminate].
  destruct rs as [|r rs].
  - destruct (Check.id check); cbn [getitem rbind]; [|discriminate].
    destruct (Check.description check); cbn [getitem rbind]; [|discriminate].
    intros [= <-]. left. eauto.
  - intros [= <-]. right. split; [discriminate|].
    now apply (check_files_failing check (pat :: pats) (f :: files)).
Qed.

(** X9.  The file validator returns exactly one result. *)
Theorem file_results_single P check results :
  FileValidator.validate P check = Ok results ->
  exists r, results = [r].
Proof.
  unfold FileValidator.validate, FileValidator._check_pattern_files.
  destruct (get (Check.files check) []) as [|name names].
  - destruct (get (Check.patterns check) []) as [|pat pats].
    + destruct (Check.id check); cbn [getitem rbind]; [|discriminate].
      intros [= <-]. eauto.
    + destruct (FileValidator.find_matching P (pat :: pats) [])
        as [[[] matching]|e]; cbn [rbind]; [ | |discriminate];
        destruct (Check.id check); cbn [getitem rbind]; try discriminate;
        try (destruct (Check.description check); cbn [getitem rbind];
             [|discriminate]);
        intros [= <-]; eauto.
  - destruct (FileValidator.any_exists P (name :: names));
      destruct (Check.id check); cbn [getitem rbind]; try discriminate;
      try (destruct (Check.description check); cbn [getitem rbind];
           [|discriminate]);
      intros [= <-]; eauto.
Qed.

End ValidatorShapes.

Section ValidatorEdges.
Context `{Runtime}.
Import ValidationResult.
Local Open Scope list_scope.






(** X11.  When the first pattern of a check is not a valid regular
    expression, every scanned file is reported as unreadable: the result
    is one failing result per file, of severity [error], whose message
    carries the text of the compile error, or that of the read error for
    a file that cannot be read either. *)
Theorem invalid_pattern_reported_per_file P check i pat pats e :
  Check.id check = Some i ->
  Check.patterns check = Some (pat :: pats) ->
  re_compile pat = Raise e ->
  scanned P check <> [] ->
  PatternValidator.validate P check
  = Ok (map (fun f =>
               {| check_id := i; passed := false;
                  message := "Error reading file: "
                             ++ str_exn (match read_text f with
                                         | Ok _ => e
                                         | Raise e' => e'
                                         end);
                  file_path := String.concat "/" (rel_parts f);
                  line_number := 0; severity := "error" |})
            (scanned P check)).
Proof.
  intros Hid Hp Hc Hne.
  rewrite (validate_scan P check i pat pats Hid Hp).
  assert (Hscan : forall files,
             PatternValidator.check_files check (pat :: pats) files []
             = Ok (map (fun f =>
                          {| check_id := i; passed := false;
                             message := "Error reading file: "
                                        ++ str_exn (match read_text f with
                                                    | Ok _ => e
                                                    | Raise e' => e'
                                                    end);
                             file_path := String.concat "/" (rel_parts f);
                             line_number := 0; severity := "error" |})
                       files)).
  { induction files as [|f files IH]; [reflexivity|].
    cbn [PatternValidator.check_files map].
    unfold PatternValidator.try_file, PatternValidator.error_result.
    rewrite Hid. cbn [getitem rbind].
    destruct (read_text f) as [content|e'];
      cbn [PatternValidator.search_patterns]; rewrite ?Hc;
      cbn [app]; rewrite check_files_acc, IH; reflexivity. }
  rewrite Hscan. destruct (scanned P check) as [|f files]; [congruence|].
  reflexivity.
Qed.

End ValidatorEdges.

Section ScanSet.
Context `{Runtime}.
Import ValidationResult.
Local Open Scope list_scope.

Lemma str_in_In x xs : str_in x xs = true <-> In x xs.
Proof.
  unfold str_in. rewrite existsb_exists. split.
  - intros (y & Hin & Heq). apply String.eqb_eq in Heq. now subst.
  - intros Hin. exists x. split; [exact Hin | apply String.eqb_refl].
Qed.

Lemma kept_iff P f :
  BaseValidator.kept P f = true
  <-> forall d, In d BaseValidator.skip_dirs -> ~ In d (parts P f).
Proof.
  unfold BaseValidator.kept. rewrite negb_true_iff. split.
  - intros Hno d Hd Hin.
    assert (Hex : existsb (fun skip_dir => str_in skip_dir (parts P f))
                          BaseValidator.skip_dirs = true).
    { apply existsb_exists. exists d. split; [exact Hd|].
      now apply str_in_In. }
    congruence.
  - intros Hno.
    destruct (existsb _ BaseValidator.skip_dirs) eqn:Hex; [|reflexivity].
    apply existsb_exists in Hex as (d & Hd & Hin).
    apply str_in_In in Hin. now destruct (Hno d Hd).
Qed.

(** X12.  The files a validator scans are exactly the entries below the
    project root that the glob of one of the extensions finds and whose
    full path, the parts of the project path included, has no component
    named after an ignored directory. *)
Theorem scanned_files_iff P extensions f :
  In f (BaseValidator.get_files_to_check P extensions)
  <-> In f (entries P)
      /\ (exists ext, In ext extensions
                      /\ glob_match ("*" ++ ext) (rel_parts f) = true)
      /\ forall d, In d BaseValidator.skip_dirs -> ~ In d (parts P f).
Proof.
  unfold BaseValidator.get_files_to_check, BaseValidator.rglob.
  rewrite filter_In, in_flat_map, kept_iff. split.
  - intros [(ext & Hext & Hin) Hkept]. apply filter_In in Hin as [Hin Hm].
    repeat split; eauto.
  - intros (Hin & (ext & Hext & Hm) & Hkept). split; [|exact Hkept].
    exists ext. split; [exact Hext|]. apply filter_In. now split.
Qed.

(** X13.  When a component of the project path itself is named after an
    ignored directory, nothing is scanned, so every check with patterns
    and an id passes with "No files found to check", whatever the files
    hold. *)
Theorem ignored_root_scans_nothing P check i pat pats d :
  In d BaseValidator.skip_dirs ->
  In d (project_path P) ->
  Check.id check = Some i ->
  Check.patterns check = Some (pat :: pats) ->
  scanned P check = []
  /\ PatternValidator.validate P check
     = Ok [ {| check_id := i; passed := true;
               message := "No files found to check";
               file_path := ""; line_number := 0; severity := "info" |} ].
Proof.
  intros Hd Hroot Hid Hp.
  assert (Hnone : scanned P check = []).
  { destruct (scanned P check) as [|f files] eqn:Hs; [reflexivity|].
    assert (Hin : In f (scanned P check)) by (rewrite Hs; now left).
    unfold scanned, BaseValidator.get_files_to_check in Hin.
    apply filter_In in Hin as [_ Hk].
    destruct (proj1 (kept_iff P f) Hk d Hd).
    unfold parts. apply in_or_app. now left. }
  split; [exact Hnone|].
  now rewrite (validate_scan P check i pat pats Hid Hp), Hnone.
Qed.

End ScanSet.

Section MoreValidatorEdges.
Context `{Runtime}.
Import ValidationResult.
Local Open Scope list_scope.

Lemma search_lines_no_description check f p lines i :
  Check.id check = Some i ->
  Check.description check = None ->
  (exists l, In l lines /\ re_search p (snd l) = true) ->
  PatternValidator.search_lines check f p lines []
  = ([], Some (KeyError "description")).
Proof.
  intros Hid Hd. induction lines as [|[n line] lines IH].
  - intros (l & [] & _).
  - intros (l & [<- | Hin] & Hl); cbn [PatternValidator.search_lines snd] in *.
    + rewrite Hl. unfold PatternValidator.match_result. now rewrite Hid, Hd.
    + destruct (re_search p line).
      * unfold PatternValidator.match_result. now rewrite Hid, Hd.
      * apply IH. eauto.
Qed.

(** X14.  A check that has its id but no [description] cannot report a
    match: the lookup fails inside the [try], and the file on whose line
    the first pattern is found is reported as unreadable, with the
    missing key as the error text. *)
Theorem missing_description_reported_as_read_error
  P check i pat pats p f content line :
  Check.id check = Some i ->
  Check.description check = None ->
  Check.patterns check = Some (pat :: pats) ->
  re_compile pat = Ok p ->
  scanned P check = [f] ->
  read_text f = Ok content ->
  In line (split_lines content) ->
  re_search p line = true ->
  PatternValidator.validate P check
  = Ok [ {| check_id := i; passed := false;
            message := "Error reading file: 'description'";
            file_path := String.concat "/" (rel_parts f);
            line_number := 0; severity := "error" |} ].
Proof.
  intros Hid Hd Hp Hc Hf Hread Hin Hhit.
  rewrite (validate_scan P check i pat pats Hid Hp), Hf.
  cbn [PatternValidator.check_files]. unfold PatternValidator.try_file.
  rewrite Hread. cbn [PatternValidator.search_patterns]. rewrite Hc.
  rewrite (search_lines_no_description check f p _ i Hid Hd).
  - unfold PatternValidator.error_result. rewrite Hid. reflexivity.
  - assert (Hen : forall lines start,
               In line lines ->
               exists n, In (n, line) (enumerate lines start)).
    { induction lines as [|l lines IH]; intros start; [intros []|].
      intros [-> | Hl]; cbn [enumerate].
      - exists start. now left.
      - destruct (IH (start + 1) Hl) as [n Hn]. exists n. now right. }
    destruct (Hen _ 1 Hin) as [n Hn]. exists (n, line). now split.
Qed.

Lemma find_matching_spec P patterns start :
  (forall g, In g patterns -> rglob_error g = None) ->
  exists loop,
    FileValidator.find_matching P patterns start = Ok loop
    /\ (fst loop = true
        <-> exists pat f,
              In pat patterns /\ In f (entries P)
              /\ glob_match pat (rel_parts f) = true
              /\ BaseValidator.kept P f = true).
Proof.
  revert start. induction patterns as [|pat patterns IH]; intros start Hok.
  - eexists. split; [reflexivity|]. cbn.
    split; [discriminate | intros (? & ? & [] & _)].
  - cbn [FileValidator.find_matching].
    rewrite (Hok pat (or_introl eq_refl)).
    destruct (filter (BaseValidator.kept P) (BaseValidator.rglob P pat))
      as [|g gs] eqn:Hm.
    + destruct (IH [] (fun g Hg => Hok g (or_intror Hg)))
        as (loop & -> & Hiff).
      exists loop. split; [reflexivity|]. rewrite Hiff. split.
      * intros (pat' & f & Hin & Hrest). exists pat', f. split; [now right|].
        exact Hrest.
      * intros (pat' & f & [<- | Hin] & Hf & Hg & Hk).
        -- assert (Hfin : In f (filter (BaseValidator.kept P)
                                       (BaseValidator.rglob P pat))).
           { apply filter_In. split; [|exact Hk].
             unfold BaseValidator.rglob. apply filter_In. now split. }
           rewrite Hm in Hfin. destruct Hfin.
        -- exists pat', f. now repeat split.
    + eexists. split; [reflexivity|]. cbn [fst].
      split; [|reflexivity]. intros _.
      assert (Hg : In g (filter (BaseValidator.kept P)
                                (BaseValidator.rglob P pat)))
        by (rewrite Hm; now left).
      apply filter_In in Hg as [Hg Hk].
      unfold BaseValidator.rglob in Hg. apply filter_In in Hg as [Hg Hgm].
      exists pat, g. repeat split; auto. now left.
Qed.

(** X15.  Called on a check that names no files but has glob patterns,
    the file validator returns one result when [rglob] accepts every
    pattern, and that result passes exactly when some entry below the
    project root that is not under an ignored directory matches one of
    the patterns; when [rglob] refuses the first pattern, the validator
    raises what [rglob] raised. *)
Theorem glob_patterns_pass_iff P check i d pat pats :
  Check.id check = Some i ->
  Check.description check = Some d ->
  get (Check.files check) [] = [] ->
  Check.patterns check = Some (pat :: pats) ->
  ((forall g, In g (pat :: pats) -> rglob_error g = None) ->
   exists r,
     FileValidator.validate P check = Ok [r]
     /\ (passed r = true
         <-> exists g f,
               In g (pat :: pats) /\ In f (entries P)
               /\ glob_match g (rel_parts f) = true
               /\ BaseValidator.kept P f = true))
  /\ (forall e, rglob_error pat = Some e ->
                FileValidator.validate P check = Raise e).
Proof.
  intros Hid Hd Hfiles Hp.
  unfold FileValidator.validate, FileValidator._check_pattern_files.
  rewrite Hfiles, Hp, Hid, Hd. cbn [get getitem]. split.
  - intros Hok.
    destruct (find_matching_spec P (pat :: pats) [] Hok)
      as ([[] matching] & -> & Hspec); cbn [fst rbind] in Hspec |- *;
      eexists; (split; [reflexivity|]); cbn [passed]; rewrite <- Hspec.
    + tauto.
    + split; discriminate.
  - intros e He. cbn [FileValidator.find_matching]. now rewrite He.
Qed.

(** X16.  Through the runner, a check that has neither a [patterns] key
    nor any file name passes with "No files specified": the glob branch
    of the file validator is out of the runner's reach, since a check
    with a [patterns] key goes to the pattern validator. *)
Theorem placeholder_check_passes E check technology i :
  Check.id check = Some i ->
  Check.patterns check = None ->
  get (Check.files check) [] = [] ->
  ChecklistEngine._execute_check E check technology
  = Ok [ {| check_id := i; passed := true; message := "No files specified";
            file_path := ""; line_number := 0; severity := "info" |} ].
Proof.
  intros Hid Hp Hf. unfold ChecklistEngine._execute_check.
  cbn [Check.set_technology Check.patterns Check.files]. rewrite Hp.
  assert (Hv : FileValidator.validate (ChecklistEngine.project E)
                 (Check.set_technology technology check)
               = Ok [ {| check_id := i; passed := true;
                         message := "No files specified";
                         file_path := ""; line_number := 0;
                         severity := "info" |} ]).
  { unfold FileValidator.validate.
    cbn [Check.set_technology Check.patterns Check.files Check.id].
    now rewrite Hf, Hp, Hid. }
  now destruct (Check.files check).
Qed.

End MoreValidatorEdges.

(** ** Properties of the tools *)

Section ToolFacts.
Context `{Runtime}.
Import ChecklistEngine.
Local Open Scope list_scope.

Lemma lookup_setitem_same d k v :
  Tools.lookup_review (Main.setitem d k v) k = Some v.
Proof.
  unfold Tools.lookup_review.
  induction d as [|[k' v'] d IH]; cbn [Main.setitem find fst snd].
  - now rewrite String.eqb_refl.
  - destruct (String.eqb k' k) eqn:Hk; cbn [find fst snd]; rewrite Hk;
      [reflexivity | exact IH].
Qed.

Lemma lookup_setitem_other d k k' v :
  k' <> k ->
  Tools.lookup_review (Main.setitem d k v) k' = Tools.lookup_review d k'.
Proof.
  intros Hne. unfold Tools.lookup_review.
  assert (Hkk : String.eqb k k' = false)
    by (apply String.eqb_neq; congruence).
  induction d as [|[k0 v0] d IH]; cbn [Main.setitem find fst snd].
  - now rewrite Hkk.
  - destruct (String.eqb k0 k) eqn:Hk; cbn [find fst snd].
    + apply String.eqb_eq in Hk. subst k0. now rewrite Hkk.
    + destruct (String.eqb k0 k'); [reflexivity | exact IH].
Qed.

(** What [try_review] returns: an exception or a payload that is not a
    review leaves the registry alone, and a review is stored under the
    project name and the technology it was run for. *)
Lemma try_review_cases E path tech detected t_start t_end ar :
  (exists e, Main.try_review E path tech detected t_start t_end ar
             = (Raise e, ar))
  \/ (exists error available,
         Main.try_review E path tech detected t_start t_end ar
         = (Ok (Main.Undetected error available), ar))
  \/ (exists result technology,
         Main.try_review E path tech detected t_start t_end ar
         = (Ok (Main.Reviewed result),
            Main.setitem ar
              (last (project_path (project E)) "" ++ "_" ++ technology)%string
              result)
         /\ Main.r_technology result = technology
         /\ match tech with
            | Some (String c rest) => Ok (String c rest)
            | _ => detected
            end = Ok technology).
Proof.
  unfold Main.try_review.
  destruct tech as [[|c rest]|];
    [destruct detected as [t0|e] | | destruct detected as [t0|e]];
    try (left; eexists; reflexivity);
    try destruct (String.eqb t0 "unknown");
    destruct (new E path) as [w0|e0];
    try (left; eexists; reflexivity);
    try (right; left; eexists; eexists; reflexivity);
    destruct (review_code E _ true t_start t_end w0) as [[s|e1] w1];
    try (left; eexists; reflexivity);
    right; right; eexists; eexists; repeat split.
Qed.

(** X17.  A review that the [review_code] tool answers with a result
    can be read back: [get_review_status], asked for the same project and
    technology, returns that result. *)
Theorem review_then_status E path tech detected t_start t_end ar result ar' :
  Main.review_code E path tech detected t_start t_end ar
  = (Main.Reviewed result, ar') ->
  Tools.get_review_status E tech detected ar' = Tools.Stored result.
Proof.
  unfold Main.review_code. intros Hrun.
  destruct (try_review_cases E path tech detected t_start t_end ar)
    as [(e & He) | [(error & available & Hu)
                    | (r & technology & Hr & _ & Ht)]].
  - rewrite He in Hrun. destruct e; discriminate.
  - rewrite Hu in Hrun. discriminate.
  - rewrite Hr in Hrun. injection Hrun as <- <-.
    unfold Tools.get_review_status. rewrite Ht.
    now rewrite lookup_setitem_same.
Qed.

(** X18.  The [review_code] tool changes the registry of reviews only
    when it answers with a result, and then only the entry of the
    project and technology reviewed: any other payload leaves the
    registry as it was, and every other key keeps what it held. *)
Theorem review_registry_frame E path tech detected t_start t_end ar
  response ar' :
  Main.review_code E path tech detected t_start t_end ar = (response, ar') ->
  ((forall result, response <> Main.Reviewed result) -> ar' = ar)
  /\ (forall result review_id,
         response = Main.Reviewed result ->
         review_id
         <> (last (project_path (project E)) ""
             ++ "_" ++ Main.r_technology result)%string ->
         Tools.lookup_review ar' review_id
         = Tools.lookup_review ar review_id).
Proof.
  unfold Main.review_code. intros Hrun.
  destruct (try_review_cases E path tech detected t_start t_end ar)
    as [(e & He) | [(error & available & Hu)
                    | (r & technology & Hr & Htech & Ht)]].
  - rewrite He in Hrun.
    assert (Har : ar' = ar) by (destruct e; congruence).
    split; [auto|]. intros result review_id ->.
    destruct e; discriminate.
  - rewrite Hu in Hrun. injection Hrun as <- <-.
    split; [auto | discriminate].
  - rewrite Hr in Hrun. injection Hrun as <- <-. split.
    + intros Hno. now destruct (Hno r).
    + intros result review_id [= <-] Hne.
      apply lookup_setitem_other.
      now rewrite <- Htech.
Qed.

End ToolFacts.

Section ToolErrors.
Context `{Runtime}.
Import ChecklistEngine.
Local Open Scope list_scope.





End ToolErrors.

(** ** Properties of the technology detector *)

Section DetectorFacts.
Context `{DetectorRuntime}.
Import TechnologyDetector.
Local Open Scope list_scope.


(** Without an indicator file the file loop finds no framework. *)
Lemma scan_files_none P read tech indicators :
  (forall file, In file (ind_files indicators) ->
                _file_exists P file = false) ->
  scan_files P read tech indicators = (PyInt 0, []).
Proof.
  unfold scan_files. generalize (PyInt 0, @nil string).
  induction (ind_files indicators) as [|file files IH]; intros acc Hnone;
    [reflexivity|].
  cbn [fold_left]. destruct acc as [score found].
  rewrite (Hnone file (or_introl eq_refl)). apply IH.
  intros f Hf. apply Hnone. now right.
Qed.

(** No indicator file and no source file: no entry for the technology. *)
Lemma candidate_none P read tech indicators :
  (forall file, In file (ind_files indicators) ->
                _file_exists P file = false) ->
  _count_extensions P (ind_extensions indicators) = 0 ->
  candidate P read tech indicators = None.
Proof.
  intros Hfiles Hext. unfold candidate.
  rewrite (scan_files_none P read tech indicators Hfiles), Hext.
  reflexivity.
Qed.

(** An entry means evidence: an indicator file or a source file. *)
Lemma candidate_some P read tech indicators c :
  candidate P read tech indicators = Some c ->
  cand_technology c = tech
  /\ ((exists file, In file (ind_files indicators)
                    /\ _file_exists P file = true)
      \/ 0 < _count_extensions P (ind_extensions indicators)).
Proof.
  intros Hc. split.
  - unfold candidate in Hc.
    destruct (scan_files P read tech indicators) as [score found].
    destruct (positive _); [|discriminate]. now injection Hc as <-.
  - destruct (Z.ltb_spec 0 (_count_extensions P (ind_extensions indicators)))
      as [Hpos|Hle]; [now right|]. left.
    destruct (existsb (_file_exists P) (ind_files indicators)) eqn:Hex.
    + apply existsb_exists in Hex. exact Hex.
    + exfalso.
      assert (Hnone : forall file, In file (ind_files indicators) ->
                                   _file_exists P file = false).
      { intros file Hin.
        destruct (_file_exists P file) eqn:Hf; [|reflexivity].
        assert (existsb (_file_exists P) (ind_files indicators) = true)
          by (apply existsb_exists; eauto).
        congruence. }
      unfold candidate in Hc.
      rewrite (scan_files_none P read tech indicators Hnone) in Hc.
      destruct (Z.gtb_spec (_count_extensions P (ind_extensions indicators))
                           0); [lia|].
      cbn in Hc. discriminate.
Qed.

Lemma insert_In c d sorted : In d (insert c sorted) <-> d = c \/ In d sorted.
Proof.
  induction sorted as [|e sorted IH]; cbn [insert].
  - cbn. intuition congruence.
  - destruct (score_lt (cand_score c) (cand_score e)); cbn [In].
    + rewrite IH. intuition.
    + intuition congruence.
Qed.

Lemma sort_In d detected : In d (sort detected) <-> In d detected.
Proof.
  induction detected as [|c detected IH]; [reflexivity|].
  cbn [sort fold_right]. fold (sort detected).
  rewrite insert_In, IH. cbn [In]. intuition congruence.
Qed.

Lemma detected_candidates_In P read c :
  In c (detected_candidates P read)
  <-> exists tech indicators,
        In (tech, indicators) TECH_INDICATORS
        /\ candidate P read tech indicators = Some c.
Proof.
  unfold detected_candidates. rewrite in_flat_map. split.
  - intros ([tech indicators] & Hin & Hc). cbn [fst snd] in Hc.
    destruct (candidate P read tech indicators) as [c'|] eqn:Hcand;
      [|destruct Hc].
    destruct Hc as [<- | []]. eauto.
  - intros (tech & indicators & Hin & Hc). exists (tech, indicators).
    split; [exact Hin|]. cbn [fst snd]. rewrite Hc. now left.
Qed.

(** Without evidence for any technology the sorted list is empty. *)
Lemma no_candidates P read :
  (forall tech indicators file,
      In (tech, indicators) TECH_INDICATORS ->
      In file (ind_files indicators) -> _file_exists P file = false) ->
  (forall tech indicators,
      In (tech, indicators) TECH_INDICATORS ->
      _count_extensions P (ind_extensions indicators) = 0) ->
  sort (detected_candidates P read) = [].
Proof.
  intros Hfiles Hext.
  destruct (sort (detected_candidates P read)) as [|top rest] eqn:Hs;
    [reflexivity|].
  assert (Hin : In top (sort (detected_candidates P read)))
    by (rewrite Hs; now left).
  apply sort_In, detected_candidates_In in Hin
    as (tech & indicators & Hin & Hc).
  rewrite (candidate_none P read tech indicators) in Hc; [discriminate| |].
  - intros file Hf. eapply Hfiles; eauto.
  - eapply Hext; eauto.
Qed.

(** X21.  When no indicator file of any technology exists, at the root
    or under [src], [app] or [config], and no file with a known source
    extension lies below the root, the detector answers [unknown], with
    no frameworks and confidence zero. *)
Theorem nothing_found_unknown P read :
  (forall tech indicators file,
      In (tech, indicators) TECH_INDICATORS ->
      In file (ind_files indicators) -> _file_exists P file = false) ->
  (forall tech indicators,
      In (tech, indicators) TECH_INDICATORS ->
      _count_extensions P (ind_extensions indicators) = 0) ->
  detect P read
  = {| primary := "unknown"; frameworks := []; confidence := float_zero |}.
Proof.
  intros Hfiles Hext. unfold detect.
  now rewrite (no_candidates P read Hfiles Hext).
Qed.

(** X22.  A technology is only ever named on evidence: when the answer
    is not [unknown], it is one of the known technologies, and an
    indicator file of it exists or a file with one of its source
    extensions lies below the root. *)
Theorem primary_has_evidence P read :
  primary (detect P read) <> "unknown"%string ->
  exists indicators,
    In (primary (detect P read), indicators) TECH_INDICATORS
    /\ ((exists file, In file (ind_files indicators)
                      /\ _file_exists P file = true)
        \/ 0 < _count_extensions P (ind_extensions indicators)).
Proof.
  unfold detect.
  destruct (sort (detected_candidates P read)) as [|top rest] eqn:Hs;
    cbn [primary]; [congruence|].
  intros _.
  assert (Hin : In top (sort (detected_candidates P read)))
    by (rewrite Hs; now left).
  apply sort_In, detected_candidates_In in Hin
    as (tech & indicators & Hin & Hc).
  apply candidate_some in Hc as [-> Hev]. eauto.
Qed.

End DetectorFacts.

Section DetectorWins.
Context `{DetectorRuntime}.
Import TechnologyDetector.
Local Open Scope list_scope.




(** X24.  Asked without a technology for a project that exists but
    shows no evidence of any, the [review_code] tool runs no review: it
    answers that it could not detect the technology, lists the
    checklists there are, and stores nothing. *)
Theorem undetected_project_not_reviewed E read path t_start t_end ar :
  root_exists (ChecklistEngine.project E) = true ->
  (forall tech indicators file,
      In (tech, indicators) TECH_INDICATORS ->
      In file (ind_files indicators) ->
      _file_exists (ChecklistEngine.project E) file = false) ->
  (forall tech indicators,
      In (tech, indicators) TECH_INDICATORS ->
      _count_extensions (ChecklistEngine.project E)
                        (ind_extensions indicators) = 0) ->
  Main.review_code E path None
    (rbind (detect_technology (ChecklistEngine.project E) read path)
           (fun detection => Ok (primary detection)))
    t_start t_end ar
  = (Main.Undetected
       "Could not detect technology. Please specify explicitly."
       (ChecklistEngine.get_available_checklists E),
     ar).
Proof.
  intros Hroot Hfiles Hext.
  unfold detect_technology, detect. rewrite Hroot.
  rewrite (no_candidates (ChecklistEngine.project E) read Hfiles Hext).
  cbn [rbind primary].
  unfold Main.review_code, Main.try_review, ChecklistEngine.new.
  rewrite Hroot. reflexivity.
Qed.

End DetectorWins.

Section AbortedReviews.
Context `{Runtime}.
Import ValidationResult ChecklistEngine.
Local Open Scope list_scope.

(** A loop carries along what each pass of its body does, however the
    pass or the loop ends. *)
Lemma for_each_preserves {A} (body : A -> M unit) (I : World -> Prop) :
  (forall x w r w', body x w = (r, w') -> I w -> I w') ->
  forall xs w r w', for_each body xs w = (r, w') -> I w -> I w'.
Proof.
  intros Hbody. induction xs as [|x xs IH]; intros w r w' Hrun Hw.
  - cbn in Hrun. now injection Hrun as <- <-.
  - cbn [for_each] in Hrun. unfold bind in Hrun.
    destruct (body x w) as [[[]|e] w1] eqn:Hx.
    + eapply IH; [exact Hrun|]. eapply Hbody; eauto.
    + injection Hrun as <- <-. eapply Hbody; eauto.
Qed.

Lemma review_check_end_time E technology cb category_name check w r w' :
  review_check E technology cb category_name check w = (r, w') ->
  ProgressTracker.end_time (progress_tracker w')
  = ProgressTracker.end_time (progress_tracker w).
Proof.
  intros Hrun.
  destruct (Check.id check) as [i|] eqn:Hid;
    [|unfold review_check, bind, lift in Hrun; rewrite Hid in Hrun;
      now injection Hrun as <- <-].
  destruct (Check.description check) as [d|] eqn:Hd;
    [|unfold review_check, bind, lift in Hrun; rewrite Hid, Hd in Hrun;
      now injection Hrun as <- <-].
  destruct (_execute_check E check technology) as [results|e] eqn:Hexec.
  - rewrite (review_check_run E technology cb category_name check w
               i d results Hid Hd Hexec) in Hrun.
    injection Hrun as <- <-. cbn [progress_tracker].
    now destruct (after_check_fields i d category_name results
                    (progress_tracker w)) as (_ & _ & _ & _ & _ & -> & _).
  - unfold review_check, bind, lift in Hrun. rewrite Hid, Hd in Hrun.
    cbn [getitem tracker] in Hrun.
    destruct cb; cbn [notify ProgressTracker.get_progress] in Hrun;
      rewrite Hexec in Hrun; now injection Hrun as <- <-.
Qed.

Lemma review_category_end_time E technology cb category w r w' :
  review_category E technology cb category w = (r, w') ->
  ProgressTracker.end_time (progress_tracker w')
  = ProgressTracker.end_time (progress_tracker w).
Proof.
  unfold review_category, bind, lift. intros Hrun.
  destruct (Category.name category); cbn [getitem] in Hrun;
    [|now injection Hrun as <- <-].
  destruct (Category.items category) as [items|]; cbn [getitem] in Hrun;
    [|now injection Hrun as <- <-].
  apply (for_each_preserves _
           (fun w0 => ProgressTracker.end_time (progress_tracker w0)
                      = ProgressTracker.end_time (progress_tracker w))
           (fun x w0 r0 w1 Hx Hw =>
              eq_trans (review_check_end_time E technology cb _ x w0 r0 w1 Hx)
                       Hw)
           items w r w' Hrun eq_refl).
Qed.

(** X25.  A review that raises never stamps an end time: the tracker
    keeps the end time it had, so on an engine just created its summary
    still reports [in_progress]. *)
Theorem aborted_review_not_completed E technology cb t_start t_end w e w' :
  review_code E technology cb t_start t_end w = (Raise e, w') ->
  ProgressTracker.end_time (progress_tracker w')
  = ProgressTracker.end_time (progress_tracker w)
  /\ (ProgressTracker.end_time (progress_tracker w) = None ->
      ProgressTracker.status
        (fst (ProgressTracker.get_summary (progress_tracker w')))
      = "in_progress"%string).
Proof.
  intros Hrun.
  assert (Hend : ProgressTracker.end_time (progress_tracker w')
                 = ProgressTracker.end_time (progress_tracker w)).
  { unfold review_code, bind, lift in Hrun.
    destruct (load_checklist E technology) as [checklist|];
      [|now injection Hrun as <- <-].
    destruct (Checklist.categories checklist) as [categories|];
      cbn [getitem] in Hrun; [|now injection Hrun as <- <-].
    destruct (count_checks categories 0) as [n|];
      [|now injection Hrun as <- <-].
    cbn [tracker] in Hrun.
    destruct (for_each _ categories _) as [[[]|e'] wl] eqn:Hloop.
    - cbn in Hrun. discriminate.
    - injection Hrun as <- <-.
      apply (for_each_preserves _
               (fun w0 => ProgressTracker.end_time (progress_tracker w0)
                          = ProgressTracker.end_time (progress_tracker w))
               (fun x w0 r0 w1 Hx Hw =>
                  eq_trans (review_category_end_time E technology cb
                              x w0 r0 w1 Hx) Hw)
               categories _ _ _ Hloop eq_refl). }
  split; [exact Hend|]. intros Hnone.
  cbn [ProgressTracker.get_summary ProgressTracker.get_progress fst
       ProgressTracker.status].
  now rewrite Hend, Hnone.
Qed.

End AbortedReviews.

(* ===================================================================== *)
(** * Runs on the sample runtime *)
(* ===================================================================== *)

Import Sample.

Module Runs.
Import ValidationResult ChecklistEngine ProgressTracker.
Local Open Scope list_scope.

(** Evaluate the review of the goal, name the equation and give its
    summary and final state as the two witnesses. *)
Ltac run_review H :=
  match goal with
  | |- exists s w', ?run = (Ok s, w') /\ _ =>
      let v := eval vm_compute in run in
      assert (H : run = v) by reflexivity;
      match v with
      | (Ok ?s, ?w) => exists s, w; split; [exact H|]
      end
  end.

(** C1 fails on the code: [review_code] calls [record_fail], which
    records a failed check, once for every failing result, so one check
    whose pattern is found on two lines is counted as two failures, and
    the summary reports 2 completed of a total of 1. *)
Lemma completed_exceeds_total :
  exists s w',
    review_code (engine_of [file ["a.py"] two_todos] [quality])
                "python" true 10 20 fresh = (Ok s, w')
    /\ total (progress s) = 1
    /\ completed (progress s) = 2
    /\ ~ completed (progress s) <= total (progress s).
Proof.
  run_review Hrun.
  split; [reflexivity|]. split; [reflexivity|].
  cbn [progress total completed]. lia.
Qed.

(** Each sample check gets at most one failing result on this project. *)
Lemma single_failures_sample :
  Forall (single_failure (engine_of [file ["a.py"] one_todo] [quality; docs])
                         "python")
         [todo_check; readme_check].
Proof.
  constructor; [|constructor; [|constructor]];
    intros results Hrun; vm_compute in Hrun; injection Hrun as <-;
    vm_compute; lia.
Defined.

(** X26 on a run: two checks, one failure each, and the summary
    reports 2 completed of 2. *)
Lemma completed_counts_witness :
  exists s w',
    review_code (engine_of [file ["a.py"] one_todo] [quality; docs])
                "python" true 10 20 fresh = (Ok s, w')
    /\ total (progress s) = 2
    /\ completed (progress s) = 2.
Proof.
  run_review Hrun.
  destruct (proj2 (proj2 completed_counts)
              (engine_of [file ["a.py"] one_todo] [quality; docs])
              "python" true 10 20 fresh _ _
              {| Checklist.technology := Some "python";
                 Checklist.description := Some "Python checks";
                 Checklist.categories := Some [quality; docs] |}
              [quality; docs] eq_refl eq_refl single_failures_sample Hrun)
    as (Ht & Hc & _).
  split; [exact Ht | exact Hc].
Defined.

(** C2 on a run: the pattern check goes to the pattern validator, the
    file check to the file validator. *)
Lemma execute_check_dispatch_witness :
  _execute_check (engine_of [] []) todo_check "python"
  = PatternValidator.validate (project_of [])
      (Check.set_technology "python" todo_check)
  /\ _execute_check (engine_of [] []) readme_check "python"
     = FileValidator.validate (project_of [])
         (Check.set_technology "python" readme_check).
Proof.
  split.
  - apply (proj1 (execute_check_dispatch (engine_of [] []) todo_check
                    "python") ["TODO"]).
    reflexivity.
  - apply (proj2 (execute_check_dispatch (engine_of [] []) readme_check
                    "python")).
    reflexivity.
Defined.

(** C3 on a run: the marker on line 3 of the only scanned file. *)
Lemma validate_single_match_witness :
  PatternValidator.validate
    (project_of [file ["pkg"; "a.py"] one_todo]) todo_check
  = Ok [ {| check_id := "Q1"; ValidationResult.passed := false;
            message := "Pattern match: No TODO markers";
            file_path := "pkg/a.py"; line_number := 3;
            severity := "warning" |} ].
Proof.
  apply (validate_single_match
           (project_of [file ["pkg"; "a.py"] one_todo]) todo_check
           "Q1" "No TODO markers" "TODO" ("todo" : @pattern runtime)
           (file ["pkg"; "a.py"] one_todo) one_todo
           ["import os"; "x = 1"] "# TODO: tidy up" ["y = 2"]);
    try reflexivity.
  intros l [<-|[<-|[<-|[]]]]; reflexivity.
Defined.



(** C6 on a run: a file without the marker, and a project without any
    source file. *)
Lemma validate_clean_witness :
  PatternValidator.validate (project_of [file ["a.py"] tidy]) todo_check
  = Ok [ {| check_id := "Q1"; ValidationResult.passed := true;
            message := "No TODO markers";
            file_path := ""; line_number := 0; severity := "info" |} ]
  /\ PatternValidator.validate (project_of [file ["README.md"] "hello"])
                               todo_check
     = Ok [ {| check_id := "Q1"; ValidationResult.passed := true;
               message := "No files found to check";
               file_path := ""; line_number := 0; severity := "info" |} ].
Proof.
  split.
  - apply (proj1 (validate_clean (project_of [file ["a.py"] tidy])
                    todo_check "Q1" "No TODO markers" "TODO" []
                    eq_refl eq_refl eq_refl)).
    + discriminate.
    + reflexivity.
  - apply (proj2 (proj2 (validate_clean
                           (project_of [file ["README.md"] "hello"])
                           todo_check "Q1" "No TODO markers" "TODO" []
                           eq_refl eq_refl eq_refl))).
    reflexivity.
Defined.

(** C7 on a run: the second category has no items. *)
Lemma missing_items_aborts_witness :
  review_code (engine_of [file ["a.py"] tidy] [quality; broken])
              "python" true 10 20 fresh
  = (Raise (KeyError "items"), fresh)
  /\ Main.review_code (engine_of [file ["a.py"] tidy] [quality; broken])
                      "/srv/app" (Some "python") (Ok "python") 10 20 []
     = (Main.Failed "'items'" "KeyError", []).
Proof.
  destruct (missing_items_aborts
              (engine_of [file ["a.py"] tidy] [quality; broken]) "python"
              {| Checklist.technology := Some "python";
                 Checklist.description := Some "Python checks";
                 Checklist.categories := Some [quality; broken] |}
              [quality; broken] eq_refl eq_refl)
    as [Hrun Htool].
  - apply Exists_cons_tl, Exists_cons_hd. reflexivity.
  - split.
    + apply Hrun.
    + apply Htool; [reflexivity | discriminate].
Defined.

(** C10 on a run: the summary, and the tracker started again, name the
    check reviewed last. *)
Lemma current_check_outlives_review_witness :
  exists s w',
    review_code (engine_of [file ["a.py"] one_todo] [quality; docs])
                "python" true 10 20 fresh = (Ok s, w')
    /\ p_current_check (progress s)
       = Some {| cc_id := "D1"; cc_description := "Has a README" |}
    /\ p_in_progress (progress s) = false
    /\ p_current_check
         (fst (get_progress (start 5 30 (progress_tracker w'))))
       = Some {| cc_id := "D1"; cc_description := "Has a README" |}.
Proof.
  run_review Hrun.
  destruct (proj2 (proj2 current_check_outlives_review)
              (engine_of [file ["a.py"] one_todo] [quality; docs])
              "python" true 10 20 fresh _ _
              {| Checklist.technology := Some "python";
                 Checklist.description := Some "Python checks";
                 Checklist.categories := Some [quality; docs] |}
              [quality; docs] [todo_check] readme_check
              eq_refl eq_refl eq_refl Hrun)
    as (i & d & Hid & Hd & Hcur & Hin & Hnext & _).
  injection Hid as <-. injection Hd as <-.
  split; [exact Hcur|]. split; [exact Hin|]. exact (Hnext 5 30).
Defined.

End Runs.

Module MoreRuns.
Import ValidationResult ChecklistEngine ProgressTracker.
Import Sample MoreSample.
Local Open Scope list_scope.

(** Evaluate the review of the goal and give its summary and final
    state. *)
Ltac eval_review H :=
  match goal with
  | |- exists s w', ?run = (Ok s, w') /\ _ =>
      let v := eval vm_compute in run in
      assert (H : run = v) by reflexivity;
      match v with
      | (Ok ?s, ?w) => exists s, w; split; [exact H|]
      end
  end.

(** X3 on a run: one failure from each of two checks. *)
Lemma review_summary_tally_witness :
  exists s w',
    review_code (engine_of [file ["a.py"] one_todo] [quality; docs])
                "python" true 10 20 fresh = (Ok s, w')
    /\ p_passed (progress s) = 0
    /\ p_failed (progress s) = Z.of_nat (List.length (s_failures s))
    /\ p_skipped (progress s) = 0.
Proof.
  eval_review Hrun.
  destruct (@review_summary_tally runtime
              (engine_of [file ["a.py"] one_todo] [quality; docs])
              "python" true 10 20 fresh _ _
              (sample_checklist [quality; docs]) [quality; docs]
              eq_refl eq_refl Hrun) as (_ & Hp & Hd & Hs).
  split; [exact Hp|]. split; [exact Hd | exact Hs].
Defined.

(** X4 on a run: the failure reported first belongs to check Q1. *)
Lemma failures_come_from_checklist_witness :
  exists s w',
    review_code (engine_of [file ["a.py"] one_todo] [quality; docs])
                "python" true 10 20 fresh = (Ok s, w')
    /\ exists f check, hd_error (s_failures s) = Some f
                       /\ Check.id check = Some (f_check_id f)
                       /\ In ("Quality", check)
                             (tagged_checks [quality; docs]).
Proof.
  eval_review Hrun.
  match goal with
  | |- exists f check, hd_error (s_failures ?s) = Some f /\ _ =>
      let fs := eval vm_compute in (s_failures s) in
      match fs with
      | ?f :: _ =>
          destruct (@failures_come_from_checklist runtime
                      (engine_of [file ["a.py"] one_todo] [quality; docs])
                      "python" true 10 20 fresh _ _
                      (sample_checklist [quality; docs]) [quality; docs] f
                      eq_refl eq_refl Hrun (or_introl eq_refl))
            as (cn & check & results & r & Hin & Hid & Hcat & _);
          exists f, check; split; [reflexivity|]; split; [exact Hid|];
          cbn [f_category] in Hcat; now subst cn
      end
  end.
Defined.

(** X5 on a run: four snapshots for two checks. *)
Lemma callback_twice_per_check_witness :
  exists s w',
    review_code (engine_of [file ["a.py"] one_todo] [quality; docs])
                "python" true 10 20 fresh = (Ok s, w')
    /\ List.length (progress_updates w') = 4%nat.
Proof.
  eval_review Hrun.
  destruct (@callback_twice_per_check runtime
              (engine_of [file ["a.py"] one_todo] [quality; docs])
              "python" true 10 20 fresh _ _
              (sample_checklist [quality; docs]) [quality; docs]
              eq_refl eq_refl Hrun) as (new & Hu & _ & Hlen).
  cbn [progress_updates fresh app] in Hu. cbn [progress_updates].
  rewrite Hu. exact Hlen.
Defined.

(** X6 on a run: a tracker that was completed before is started again. *)
Lemma review_summary_stamps_witness :
  exists s w',
    review_code (engine_of [file ["a.py"] one_todo] [quality; docs])
                "python" false 10 25
                {| progress_tracker := complete 5 (start 9 1 init);
                   progress_updates := [] |} = (Ok s, w')
    /\ status s = "completed"%string
    /\ total (progress s) = 2
    /\ duration_seconds s = Some (total_seconds (25 - 10)).
Proof.
  eval_review Hrun.
  destruct (@review_summary_stamps runtime
              (engine_of [file ["a.py"] one_todo] [quality; docs])
              "python" false 10 25 _ _ _
              (sample_checklist [quality; docs]) [quality; docs]
              eq_refl eq_refl Hrun) as (Hs & Ht & Hd & _).
  split; [exact Hs|]. split; [exact Ht | exact Hd].
Defined.

(** X7 on a run: two failures of one check, 2 completed of 1. *)
Lemma completed_at_least_total_witness :
  exists s w',
    review_code (engine_of [file ["a.py"] two_todos] [quality])
                "python" true 10 20 fresh = (Ok s, w')
    /\ total (progress s) <= completed (progress s).
Proof.
  eval_review Hrun.
  exact (@completed_at_least_total runtime
           (engine_of [file ["a.py"] two_todos] [quality])
           "python" true 10 20 fresh _ _
           (sample_checklist [quality]) [quality] eq_refl eq_refl Hrun).
Defined.

(** X8 on a run: a clean file gives the single passing result. *)
Lemma pattern_results_shape_witness :
  exists r,
    PatternValidator.validate (project_of [file ["a.py"] tidy]) todo_check
    = Ok [r]
    /\ ValidationResult.passed r = true.
Proof.
  destruct (@pattern_results_shape runtime
              (project_of [file ["a.py"] tidy]) todo_check _ eq_refl)
    as [(r & Hr & Hp) | (_ & Hall)].
  - exists r. injection Hr as <-. split; [reflexivity | exact Hp].
  - inversion Hall as [|? ? Hf _]. discriminate Hf.
Defined.

(** X9 on a run. *)
Lemma file_results_single_witness :
  exists r,
    FileValidator.validate (project_of [file ["a.py"] tidy]) readme_check
    = Ok [r].
Proof.
  destruct (@file_results_single runtime
              (project_of [file ["a.py"] tidy]) readme_check _ eq_refl)
    as [r Hr].
  exists r. now rewrite <- Hr.
Defined.


(** X11 on a run: one readable and one unreadable file. *)
Lemma invalid_pattern_reported_per_file_witness :
  PatternValidator.validate
    (project_of [file ["a.py"] tidy; unreadable ["b.py"] "Permission denied"])
    bad_pattern_check
  = Ok [ {| check_id := "Q3"; ValidationResult.passed := false;
            message := "Error reading file: unsupported pattern";
            file_path := "a.py"; line_number := 0; severity := "error" |};
         {| check_id := "Q3"; ValidationResult.passed := false;
            message := "Error reading file: Permission denied";
            file_path := "b.py"; line_number := 0; severity := "error" |} ].
Proof.
  apply (@invalid_pattern_reported_per_file runtime
           (project_of [file ["a.py"] tidy;
                        unreadable ["b.py"] "Permission denied"])
           bad_pattern_check "Q3" "(" [] (re_error "unsupported pattern")
           eq_refl eq_refl eq_refl).
  discriminate.
Defined.

(** X13 on a run: a file with a marker, in a project under [build]. *)
Lemma ignored_root_scans_nothing_witness :
  PatternValidator.validate (under_build [file ["a.py"] one_todo]) todo_check
  = Ok [ {| check_id := "Q1"; ValidationResult.passed := true;
            message := "No files found to check";
            file_path := ""; line_number := 0; severity := "info" |} ].
Proof.
  refine (proj2 (@ignored_root_scans_nothing runtime
                   (under_build [file ["a.py"] one_todo]) todo_check
                   "Q1" "TODO" [] "build" _ _ eq_refl eq_refl));
    cbn; tauto.
Defined.

(** X14 on a run. *)
Lemma missing_description_witness :
  PatternValidator.validate (project_of [file ["a.py"] one_todo])
                            no_description_check
  = Ok [ {| check_id := "Q2"; ValidationResult.passed := false;
            message := "Error reading file: 'description'";
            file_path := "a.py"; line_number := 0; severity := "error" |} ].
Proof.
  apply (@missing_description_reported_as_read_error runtime
           (project_of [file ["a.py"] one_todo]) no_description_check
           "Q2" "TODO" [] ("todo" : @pattern runtime)
           (file ["a.py"] one_todo) one_todo "# TODO: tidy up");
    try reflexivity.
  cbn. tauto.
Defined.

(** X15 on a run: a markdown file below the root, found by a relative
    pattern; and a pattern that starts at the root. *)
Lemma glob_patterns_pass_iff_witness :
  (exists r,
      FileValidator.validate (project_of [file ["docs"; "guide.md"] "hello"])
                             glob_check = Ok [r]
      /\ ValidationResult.passed r = true)
  /\ FileValidator.validate (project_of [file ["docs"; "guide.md"] "hello"])
                            absolute_glob_check
     = Raise (NotImplementedError "Non-relative patterns are unsupported").
Proof.
  split.
  - destruct (proj1 (@glob_patterns_pass_iff runtime
                       (project_of [file ["docs"; "guide.md"] "hello"])
                       glob_check "D2" "Has markdown" "*.md" []
                       eq_refl eq_refl eq_refl eq_refl))
      as (r & Hr & Hiff).
    + intros g [<- | []]. reflexivity.
    + exists r. split; [exact Hr|]. apply Hiff.
      exists "*.md", (file ["docs"; "guide.md"] "hello").
      repeat split; now left.
  - exact (proj2 (@glob_patterns_pass_iff runtime
                    (project_of [file ["docs"; "guide.md"] "hello"])
                    absolute_glob_check "D3" "Has markdown"
                    "/srv/app/*.md" [] eq_refl eq_refl eq_refl eq_refl)
                 _ eq_refl).
Defined.

(** X16 on a run. *)
Lemma placeholder_check_passes_witness :
  _execute_check (engine_of [] []) placeholder_check "python"
  = Ok [ {| check_id := "P1"; ValidationResult.passed := true;
            message := "No files specified";
            file_path := ""; line_number := 0; severity := "info" |} ].
Proof.
  exact (@placeholder_check_passes runtime (engine_of [] [])
           placeholder_check "python" "P1" eq_refl eq_refl eq_refl).
Defined.

(** X17 on a run. *)
Lemma review_then_status_witness :
  exists result ar',
    Main.review_code (engine_of [file ["a.py"] one_todo] [quality])
                     "/srv/app" (Some "python") (Ok "python") 10 20 []
    = (Main.Reviewed result, ar')
    /\ Tools.get_review_status
         (engine_of [file ["a.py"] one_todo] [quality])
         (Some "python") (Ok "python") ar'
       = Tools.Stored result.
Proof.
  match goal with
  | |- exists result ar', ?run = _ /\ _ =>
      let v := eval vm_compute in run in
      match v with
      | (Main.Reviewed ?r, ?ar) =>
          assert (Hrun : run = (Main.Reviewed r, ar)) by reflexivity;
          exists r, ar; split; [exact Hrun|]
      end
  end.
  exact (@review_then_status runtime
           (engine_of [file ["a.py"] one_todo] [quality])
           "/srv/app" (Some "python") (Ok "python") 10 20 [] _ _ Hrun).
Defined.

(** X18 on a run: a review of the sample project leaves the entry of
    another project alone, and a failed one leaves the registry alone. *)
Lemma review_registry_frame_witness :
  (exists response ar',
      Main.review_code (engine_of [file ["a.py"] one_todo] [quality])
                       "/srv/app" (Some "python") (Ok "python") 10 20
                       [("other_go", old_result)]
      = (response, ar')
      /\ Tools.lookup_review ar' "other_go" = Some old_result)
  /\ snd (Main.review_code missing_engine "/srv/gone" (Some "python")
                           (Ok "python") 10 20 [("other_go", old_result)])
     = [("other_go", old_result)].
Proof.
  split.
  - match goal with
    | |- exists response ar', ?run = _ /\ _ =>
        let v := eval vm_compute in run in
        match v with
        | (Main.Reviewed ?r, ?ar) =>
            assert (Hrun : run = (Main.Reviewed r, ar)) by reflexivity;
            exists (Main.Reviewed r), ar; split; [exact Hrun|];
            rewrite (proj2 (@review_registry_frame runtime
                              (engine_of [file ["a.py"] one_todo] [quality])
                              "/srv/app" (Some "python") (Ok "python") 10 20
                              [("other_go", old_result)] _ _ Hrun)
                       r "other_go" eq_refl);
            [reflexivity | discriminate]
        end
    end.
  - destruct (Main.review_code missing_engine "/srv/gone" (Some "python")
                (Ok "python") 10 20 [("other_go", old_result)])
      as [response ar'] eqn:Hrun.
    cbn [snd].
    apply (proj1 (@review_registry_frame runtime missing_engine "/srv/gone"
                    (Some "python") (Ok "python") 10 20
                    [("other_go", old_result)] response ar' Hrun)).
    intros result ->. discriminate Hrun.
Defined.



(** X25 on a run: the second category holds a check without id. *)
Lemma aborted_review_not_completed_witness :
  exists e w',
    review_code (engine_of [file ["a.py"] one_todo] [quality; faulty])
                "python" true 10 20 fresh = (Raise e, w')
    /\ status (fst (get_summary (progress_tracker w')))
       = "in_progress"%string.
Proof.
  match goal with
  | |- exists e w', ?run = _ /\ _ =>
      let v := eval vm_compute in run in
      match v with
      | (Raise ?e, ?w) =>
          assert (Hrun : run = (Raise e, w)) by reflexivity;
          exists e, w; split; [exact Hrun|];
          exact (proj2 (@aborted_review_not_completed runtime
                          (engine_of [file ["a.py"] one_todo]
                                     [quality; faulty])
                          "python" true 10 20 fresh e w Hrun) eq_refl)
      end
  end.
Defined.

(** Take the technologies of [TECH_INDICATORS] one by one. *)
Ltac each_technology Hin :=
  cbn in Hin;
  repeat (destruct Hin as [Hin | Hin]; [injection Hin as <- <- | ]);
  [ .. | destruct Hin ].


Lemma only_go_mod_sources tech indicators :
  In (tech, indicators) TechnologyDetector.TECH_INDICATORS ->
  @TechnologyDetector._count_extensions runtime
    (project_of [file ["go.mod"] "module demo"])
    (TechnologyDetector.ind_extensions indicators) = 0.
Proof. intros Hin. each_technology Hin; reflexivity. Defined.

(** X21 on a run: an empty project. *)
Lemma nothing_found_unknown_witness :
  TechnologyDetector.detect (project_of []) (read_in [])
  = {| TechnologyDetector.primary := "unknown";
       TechnologyDetector.frameworks := [];
       TechnologyDetector.confidence := 0%Q |}.
Proof.
  apply (@nothing_found_unknown runtime detector_runtime
           (project_of []) (read_in [])).
  - intros tech indicators f _ _. reflexivity.
  - intros tech indicators Hin. each_technology Hin; reflexivity.
Defined.

(** X22 on a run: the project with the [go.mod]. *)
Lemma primary_has_evidence_witness :
  exists indicators,
    In ("go"%string, indicators) TechnologyDetector.TECH_INDICATORS
    /\ exists f, In f (TechnologyDetector.ind_files indicators)
                 /\ @TechnologyDetector._file_exists
                      (project_of [file ["go.mod"] "module demo"]) f = true.
Proof.
  destruct (@primary_has_evidence runtime detector_runtime
              (project_of [file ["go.mod"] "module demo"])
              (read_in [file ["go.mod"] "module demo"]))
    as (indicators & Hin & Hev).
  - intros Heq. vm_compute in Heq. discriminate Heq.
  - change (TechnologyDetector.primary _) with "go"%string in Hin.
    exists indicators. split; [exact Hin|].
    destruct Hev as [Hfile | Hsrc]; [exact Hfile|].
    rewrite (only_go_mod_sources "go" indicators Hin) in Hsrc. lia.
Defined.


(** X24 on a run: the tool asked about an empty project. *)
Lemma undetected_project_not_reviewed_witness :
  Main.review_code (engine_of [] [quality]) "/srv/app" None
    (rbind (TechnologyDetector.detect_technology
              (project_of []) (read_in []) "/srv/app")
           (fun detection => Ok (TechnologyDetector.primary detection)))
    10 20 []
  = (Main.Undetected
       "Could not detect technology. Please specify explicitly."
       ["python"%string],
     []).
Proof.
  apply (@undetected_project_not_reviewed runtime detector_runtime
           (engine_of [] [quality]) (read_in []) "/srv/app" 10 20 []).
  - reflexivity.
  - intros tech indicators f _ _. reflexivity.
  - intros tech indicators Hin. each_technology Hin; reflexivity.
Defined.

End MoreRuns.
